(** * Article_Summarizer.py : the Streamlit summarization shell

    A shallow embedding of [src/Article_Summarizer.py].  The script is a
    sequence of Streamlit calls around three functions that wrap external
    libraries (sumy, transformers, newspaper) and NLTK's tokenizer.  The
    embedding keeps the control flow of the script, Python's exception
    propagation and the order in which elements are rendered; the external
    libraries are an interface whose operations may raise. *)

From Stdlib Require Import ZArith QArith Qround Qabs Qpower Qreduction.
From Stdlib Require Import List Ascii String Lia Lqa.
From stdpp Require Import base gmap strings.
Import ListNotations.
Local Open Scope string_scope.
Local Open Scope Z_scope.
Local Open Scope list_scope.

(** ** Python strings (ASCII model: a string is its list of bytes) *)

Module PyStr.

(** [sub in s] for strings. *)
Fixpoint contains (sub s : string) : bool :=
  if String.prefix sub s then true
  else match s with
       | EmptyString => false
       | String _ s' => contains sub s'
       end.

(** [s.split(sep)] for a one-character separator: the pieces between the
    occurrences of [sep], always at least one piece. *)
Fixpoint split (sep : ascii) (s : string) : list string :=
  match s with
  | EmptyString => [EmptyString]
  | String c s' =>
      if Ascii.eqb c sep then EmptyString :: split sep s'
      else match split sep s' with
           | [] => [String c EmptyString]
           | p :: ps => String c p :: ps
           end
  end.

Definition lower_ascii (c : ascii) : ascii :=
  let n := nat_of_ascii c in
  if ((65 <=? n)%nat && (n <=? 90)%nat)%bool then ascii_of_nat (n + 32) else c.

(** [s.isascii()]: every character is below 128. *)
Definition isascii (s : string) : bool :=
  forallb (fun c => (nat_of_ascii c <? 128)%nat) (list_ascii_of_string s).

(** [s.lower()] for a string of ASCII characters ([isascii]): the letters
    [A]-[Z] become [a]-[z].  The bytes of a character outside ASCII are left
    as they are, where Python lowercases the character. *)
Fixpoint lower (s : string) : string :=
  match s with
  | EmptyString => EmptyString
  | String c s' => String (lower_ascii c) (lower s')
  end.

(** [sep.join(l)] *)
Definition join (sep : string) (l : list string) : string := String.concat sep l.

End PyStr.

(** ** Python floats

    A float is carried as the rational number it denotes.  [binary64 x] is
    the double nearest to [x], ties going to the even mantissa: the result
    of every arithmetic operation of Python on floats, and of [/] on two
    ints, is the exact result rounded this way.  The exponent is left
    unbounded: the quotient of two list lengths (below [2 ^ 63]) and a
    hundred times it neither overflow nor fall into the subnormal range. *)

Module PyFloat.

(** The integer nearest to [x], the even one of two that are equally
    near. *)
Definition round_half_even (x : Q) : Z :=
  let f := Qfloor x in
  match (x - inject_Z f ?= 1 # 2)%Q with
  | Lt => f
  | Gt => f + 1
  | Eq => if Z.even f then f else f + 1
  end.

(** For [x > 0], the [e] with [2 ^ e <= x < 2 ^ (e + 1)]. *)
Definition exponent (x : Q) : Z :=
  let d := Z.log2 (Qnum x) - Z.log2 (Zpos (Qden x)) in
  if Qle_bool (2 ^ d) x then d else d - 1.

(** Rounding to 53 significant bits: the nearest multiple of the unit in
    the last place of [x]. *)
Definition binary64 (x : Q) : Q :=
  let x := Qred x in
  if Qeq_bool x 0 then 0%Q
  else
    let ulp := (2 ^ (exponent (Qabs x) - 52))%Q in
    Qred (inject_Z (round_half_even (x / ulp)) * ulp).

(** The number that [f"{x:.1f}"] prints: [x] rounded to one decimal, ties
    to even. *)
Definition format_1f (x : Q) : Q :=
  Qred (inject_Z (round_half_even (x * 10)) / 10).

End PyFloat.

(** ** Python exceptions and results *)

(** The exceptions the script itself can raise, and those raised inside an
    external library (class name and message as the library gives them). *)
Inductive exn : Type :=
  | UnboundLocalError (name : string)
  | IndexError
  | ZeroDivisionError
  | LibraryError (cls msg : string).

(** [type(e).__name__] *)
Definition exn_class (e : exn) : string :=
  match e with
  | UnboundLocalError _ => "UnboundLocalError"
  | IndexError => "IndexError"
  | ZeroDivisionError => "ZeroDivisionError"
  | LibraryError cls _ => cls
  end.

Definition result (A : Type) : Type := (exn + A)%type.

(** The four sumy strategy classes the script instantiates. *)
Inductive summarizer : Type :=
  | LsaSummarizer
  | LexRankSummarizer
  | LuhnSummarizer
  | TextRankSummarizer.

(** ** What one run of the script does

    Every Streamlit call and every call of one of the script's functions is
    recorded, in program order.  [StError e] is [st.error(f"Error: {str(e)}")];
    [StSuccess] carries the three computed statistics (the elapsed time read
    from the clock is not part of the model; the ratio is the float of line
    110, as the rational it denotes, before it is formatted with one
    decimal). *)
Inductive event : Type :=
  | StPageConfig (page_title layout : string)
  | StTitle (body : string)
  | StMarkdown (body : string)
  | StRadio (label : string) (options : list string)
  | StTextArea (label value : string)
  | StTextInput (label : string)
  | StSpinner (text : string)
  | StError (e : exn)
  | StSubheader (body : string)
  | StColumns (n : Z)
  | StSelectbox (label : string) (options : list string)
  | StSlider (label : string) (min_value max_value value : Z)
  | StButton (label : string)
  | StWrite (body : string)
  | StSuccess (orig_words summ_words : Z) (ratio : Q)
  | NltkDownload (name : string)
  | CallGetArticleText (url : string)
  | CallSumy (text summarizer_type : string) (sentences_count : Z)
  | CallRank (s : summarizer) (sentences_count : Z)
  | CallAbstractive (text : string) (max_length min_length : Z).

(** The state a run acts on: what has been rendered and called so far, and
    the NLTK data packages installed on the machine. *)
Record state : Type := mkState {
  trace : list event;
  nltk_data : gset string
  }.

(** ** State and exception monad

    A raised exception keeps the state reached so far: what was rendered
    before the [raise] stays on the page. *)
Definition M (A : Type) : Type := state -> result A * state.

Definition ret {A} (a : A) : M A := fun s => (inr a, s).

Definition raise {A} (e : exn) : M A := fun s => (inl e, s).

Definition bind {A B} (c : M A) (k : A -> M B) : M B :=
  fun s => match c s with
           | (inl e, s') => (inl e, s')
           | (inr a, s') => k a s'
           end.

(** [try: c  except Exception as e: h e].  The handler is entered for
    every [exn], which is what Python does for an instance of [Exception];
    an exception outside that class ([SystemExit], [KeyboardInterrupt])
    would pass the clause, so what is said about caught exceptions is said
    for libraries that raise none of those ([library_raises_Exception]
    below). *)
Definition try_except {A} (c : M A) (h : exn -> M A) : M A :=
  fun s => match c s with
           | (inl e, s') => h e s'
           | (inr a, s') => (inr a, s')
           end.

(** A call into a library: returns or raises, the state is untouched. *)
Definition lift {A} (r : result A) : M A := fun s => (r, s).

Definition emit (e : event) : M unit :=
  fun s => (inr tt, mkState (trace s ++ [e]) (nltk_data s)).

Declare Scope py_scope.
Delimit Scope py_scope with py.
Notation "x <- c ;; k" := (bind c (fun x => k))
  (at level 100, c at next level, right associativity) : py_scope.
Notation "c ;; k" := (bind c (fun _ => k))
  (at level 100, right associativity) : py_scope.
Local Open Scope py_scope.

(** The events of a run started on an empty page. *)
Definition init (data : gset string) : state := mkState [] data.

Definition run_trace {A} (c : M A) (data : gset string) : list event :=
  trace (snd (c (init data))).

(** ** The external libraries *)

(** The user's side of the form, as Streamlit hands it to the script on one
    run: each widget call returns the current value of that widget.  The
    slider's contract is Streamlit's: the value lies between [min_value] and
    [max_value]. *)
Record Streamlit : Type := {
  radio_value : string -> list string -> string;
  text_area_value : string -> string;
  text_input_value : string -> string;
  selectbox_value : string -> list string -> string;
  slider_value : string -> Z -> Z -> Z -> Z;
  button_value : string -> bool;
  slider_in_range : forall label lo hi v,
    lo <= v <= hi -> lo <= slider_value label lo hi v <= hi
  }.

(** newspaper, sumy, transformers and NLTK's tokenizer.  Every call can
    raise; the objects the libraries hand back are opaque. *)
Record Library : Type := {
  (* newspaper *)
  article : Type;
  Article : string -> article;
  article_download : article -> result article;
  article_parse : article -> result article;
  article_text : article -> string;
  (* sumy *)
  parser : Type;
  document : Type;
  sentence : Type;
  (* PlaintextParser.from_string(text, Tokenizer(language)) *)
  PlaintextParser_from_string : string -> string -> result parser;
  parser_document : parser -> result document;
  (* summarizer(document, sentences_count) *)
  summarizer_call : summarizer -> document -> Z -> result (list sentence);
  sentence_str : sentence -> string;
  (* transformers *)
  model : Type;
  pipeline : string -> string -> result model;
  (* summarizer(text, max_length=, min_length=)[0]['summary_text'] *)
  model_call : model -> string -> Z -> Z -> result string;
  (* nltk.tokenize *)
  word_tokenize : string -> result (list string)
  }.

(** NLTK's downloader, with its server, on the machine the script runs on.
    [nltk.download(name)] is called with its defaults: a failure is reported
    by the flag it returns, not by an exception.  Both the flag and the
    packages installed afterwards depend on the package asked for and on
    what is installed; what they are is the downloader's business, not the
    script's. *)
Record Nltk : Type := {
  download_flag : string -> gset string -> bool;
  download_data : string -> gset string -> gset string
  }.

(** [nltk.download(name)] *)
Definition nltk_download (nltk : Nltk) (name : string) : M bool :=
  fun s => (inr (download_flag nltk name (nltk_data s)),
            mkState (trace s ++ [NltkDownload name])
                    (download_data nltk name (nltk_data s))).

(** ** The script *)

Section Script.

Variable nltk : Nltk.
Variable st : Streamlit.
Variable lib : Library.

(** *** Streamlit calls: render the element, return the widget's value *)

Definition st_set_page_config (page_title layout : string) : M unit :=
  emit (StPageConfig page_title layout).
Definition st_title (body : string) : M unit := emit (StTitle body).
Definition st_markdown (body : string) : M unit := emit (StMarkdown body).
Definition st_subheader (body : string) : M unit := emit (StSubheader body).
Definition st_write (body : string) : M unit := emit (StWrite body).
Definition st_error (e : exn) : M unit := emit (StError e).
Definition st_spinner (text : string) : M unit := emit (StSpinner text).
Definition st_columns (n : Z) : M unit := emit (StColumns n).
Definition st_success (orig_words summ_words : Z) (ratio : Q) : M unit :=
  emit (StSuccess orig_words summ_words ratio).

Definition st_radio (label : string) (options : list string) : M string :=
  emit (StRadio label options) ;; ret (radio_value st label options).

(** [st.text_area(label)]: the user's text. *)
Definition st_text_area (label : string) : M string :=
  let value := text_area_value st label in
  emit (StTextArea label value) ;; ret value.

(** [st.text_area(label, value)]: shows [value]; the script drops what the
    call returns. *)
Definition st_text_area_with (label value : string) : M unit :=
  emit (StTextArea label value).

Definition st_text_input (label : string) : M string :=
  emit (StTextInput label) ;; ret (text_input_value st label).

Definition st_selectbox (label : string) (options : list string) : M string :=
  emit (StSelectbox label options) ;; ret (selectbox_value st label options).

Definition st_slider (label : string) (min_value max_value value : Z) : M Z :=
  emit (StSlider label min_value max_value value) ;;
  ret (slider_value st label min_value max_value value).

Definition st_button (label : string) : M bool :=
  emit (StButton label) ;; ret (button_value st label).

(** *** Summarization functions (lines 20-44) *)

(** Lines 23-30: the [if]/[elif] chain has no [else]; after it the local
    [summarizer] is bound only if one of the four comparisons held. *)
Definition select_summarizer (summarizer_type : string) : option summarizer :=
  if String.eqb summarizer_type "lsa" then Some LsaSummarizer
  else if String.eqb summarizer_type "lex" then Some LexRankSummarizer
  else if String.eqb summarizer_type "luhn" then Some LuhnSummarizer
  else if String.eqb summarizer_type "textrank" then Some TextRankSummarizer
  else None.

(** Reading a local that was never assigned. *)
Definition read_local {A} (name : string) (v : option A) : M A :=
  match v with
  | Some a => ret a
  | None => raise (UnboundLocalError name)
  end.

Definition sumy_summarizer (text summarizer_type : string) (sentences_count : Z)
  : M string :=
  emit (CallSumy text summarizer_type sentences_count) ;;
  parser <- lift (PlaintextParser_from_string lib text "english") ;;
  let summarizer := select_summarizer summarizer_type in
  f <- read_local "summarizer" summarizer ;;
  doc <- lift (parser_document lib parser) ;;
  emit (CallRank f sentences_count) ;;
  summary <- lift (summarizer_call lib f doc sentences_count) ;;
  ret (PyStr.join " " (map (sentence_str lib) summary)).

Definition abstractive_summarizer (text : string) (max_length min_length : Z)
  : M string :=
  emit (CallAbstractive text max_length min_length) ;;
  summarizer <- lift (pipeline lib "summarization" "facebook/bart-large-cnn") ;;
  lift (model_call lib summarizer text max_length min_length).

Definition get_article_text (url : string) : M string :=
  emit (CallGetArticleText url) ;;
  let article := Article lib url in
  article <- lift (article_download lib article) ;;
  article <- lift (article_parse lib article) ;;
  ret (article_text lib article).

(** *** [main] (lines 48-121), block by block *)

(** Python truthiness of a string: [if s:] *)
Definition truthy (s : string) : bool := negb (String.eqb s "").

(** [l[i]] *)
Definition index {A} (l : list A) (i : nat) : M A :=
  match nth_error l i with
  | Some a => ret a
  | None => raise IndexError
  end.

(** Line 98: [summary_type.split("(")[1].split(")")[0].lower()] *)
Definition method_of (summary_type : string) : M string :=
  after <- index (PyStr.split "(" summary_type) 1 ;;
  inside <- index (PyStr.split ")" after) 0 ;;
  ret (PyStr.lower inside).

(** Lines 108-118.  [/] on two ints raises on a zero divisor and otherwise
    gives the float nearest to the quotient; [* 100] rounds again. *)
Definition true_div (a b : Z) : M Q :=
  if Z.eqb b 0 then raise ZeroDivisionError
  else ret (PyFloat.binary64 (inject_Z a / inject_Z b)).

Definition main_stats (text summary : string) : M unit :=
  orig <- lift (word_tokenize lib text) ;;
  let orig_words := Z.of_nat (length orig) in
  summ <- lift (word_tokenize lib summary) ;;
  let summ_words := Z.of_nat (length summ) in
  q <- true_div (orig_words - summ_words) orig_words ;;
  let ratio := PyFloat.binary64 (q * inject_Z 100) in
  st_success orig_words summ_words ratio.

(** Lines 97-103: the summarizer chosen by the selected option. *)
Definition main_summarize (text summary_type : string) (length : Z) : M string :=
  if PyStr.contains "Extractive" summary_type then
    method <- method_of summary_type ;;
    summary <- sumy_summarizer text method length ;;
    st_subheader "📋 Extractive Summary" ;;
    ret summary
  else
    summary <- abstractive_summarizer text (length * 30) 30 ;;
    st_subheader "✨ Abstractive Summary" ;;
    ret summary.

(** Lines 93-121: the body of [if st.button("Generate Summary"):] *)
Definition main_generate (text summary_type : string) (length : Z) : M unit :=
  st_spinner "Generating summary..." ;;
  try_except
    (summary <- main_summarize text summary_type length ;;
     st_write summary ;;
     main_stats text summary)
    (fun e => st_error e).

Definition summary_types : list string :=
  ["Extractive (LSA)"; "Extractive (LexRank)";
   "Extractive (Luhn)"; "Extractive (TextRank)";
   "Abstractive (BART)"].

(** Lines 74-121: the body of [if text:] *)
Definition main_options (text : string) : M unit :=
  st_subheader "Summarization Options" ;;
  st_columns 2 ;;
  summary_type <- st_selectbox "Summary type:" summary_types ;;
  length <- st_slider "Summary length:" 1 10 5 ;;
  pressed <- st_button "Generate Summary" ;;
  if pressed then main_generate text summary_type length else ret tt.

(** Lines 58-71: [text] starts as the empty string and is assigned on the
    Text path, or on the URL path when the fetch returned. *)
Definition main_input : M string :=
  input_method <- st_radio "Input method:" ["Text"; "URL"] ;;
  if String.eqb input_method "Text" then
    st_text_area "Paste your article text here:"
  else
    url <- st_text_input "Enter article URL:" ;;
    if truthy url then
      st_spinner "Fetching article..." ;;
      try_except
        (text <- get_article_text url ;;
         st_text_area_with "Extracted Text:" text ;;
         ret text)
        (fun e => st_error e ;; ret "")
    else ret "".

Definition main_header : M unit :=
  st_set_page_config "Article Summarizer" "wide" ;;
  st_title "📝 Article Summarization Tool" ;;
  st_markdown "
    Summarize lengthy articles using NLP techniques.
    Paste text directly or provide a URL.
    ".

Definition main : M unit :=
  main_header ;;
  text <- main_input ;;
  if truthy text then main_options text else ret tt.

(** Lines 14-16: the two calls stand at the top level of the module, with no
    guard, and what they return is dropped. *)
Definition module_setup : M unit :=
  nltk_download nltk "punkt" ;;
  nltk_download nltk "stopwords" ;;
  ret tt.

(** Lines 14-16 and 123-124: one execution of the file. *)
Definition script : M unit :=
  module_setup ;;
  main.

End Script.

(** A browser session.  Streamlit executes the file from top to bottom when
    the page is opened and again after every interaction with a widget, each
    time with the widget values of that moment; an exception that escapes an
    execution ends that execution only. *)
Fixpoint streamlit_session (nltk : Nltk) (lib : Library) (forms : list Streamlit)
  : M unit :=
  match forms with
  | [] => ret tt
  | st :: rest =>
      fun s => streamlit_session nltk lib rest (snd (script nltk st lib s))
  end.

(** ** What a run shows *)

(** [runs c r evs]: from every state, [c] ends with [r] (a value or a raised
    exception), having recorded [evs] and left the installed data alone. *)
Definition runs {A} (c : M A) (r : result A) (evs : list event) : Prop :=
  forall s, c s = (r, mkState (trace s ++ evs) (nltk_data s)).

Definition is_summarizer_call (e : event) : bool :=
  match e with
  | CallSumy _ _ _ | CallRank _ _ | CallAbstractive _ _ _ => true
  | _ => false
  end.

(** The elements of the options block: its heading, the columns, the two
    option widgets. *)
Definition is_option (e : event) : bool :=
  match e with
  | StSubheader _ | StColumns _ | StSelectbox _ _ | StSlider _ _ _ _ => true
  | _ => false
  end.

Definition is_trigger (e : event) : bool :=
  match e with StButton _ => true | _ => false end.

Definition is_error (e : event) : bool :=
  match e with StError _ => true | _ => false end.

Definition is_summary (e : event) : bool :=
  match e with StWrite _ => true | _ => false end.

Definition is_stats (e : event) : bool :=
  match e with StSuccess _ _ _ => true | _ => false end.

Definition is_download (e : event) : bool :=
  match e with NltkDownload _ => true | _ => false end.

(** The sentence count an event hands to the extractive summarizer lies in
    [1,10]; true of every other event. *)
Definition count_in_bound (e : event) : bool :=
  match e with
  | CallSumy _ _ n | CallRank _ n => (1 <=? n) && (n <=? 10)
  | _ => true
  end.

(** The sentence count an event hands to the extractive summarizer is [v]. *)
Definition count_is (v : Z) (e : event) : bool :=
  match e with
  | CallSumy _ _ n | CallRank _ n => n =? v
  | _ => true
  end.

(** The tags compared against on lines 23-29. *)
Definition recognized_tags : list string := ["lsa"; "lex"; "luhn"; "textrank"].

(** The four extractive entries of the select box (lines 81-82). *)
Definition extractive_options : list string :=
  ["Extractive (LSA)"; "Extractive (LexRank)"; "Extractive (Luhn)"; "Extractive (TextRank)"].

(** The states of the shell as the specification names them, read off what a
    run rendered: an error message, else the statistics of a finished summary,
    else the trigger of a provided input, else nothing but the input form. *)
Inductive shell_state : Type :=
| AwaitingInput
| InputProvided
| SummaryDisplayed
| ErrorDisplayed.

Definition spec_shell_state (tr : list event) : shell_state :=
  if existsb is_error tr then ErrorDisplayed
  else if existsb is_stats tr then SummaryDisplayed
  else if existsb is_trigger tr then InputProvided
  else AwaitingInput.

(** What the head of [main] renders (lines 49-55), and what the options
    block renders before the button is tested (lines 75-92). *)
Definition header_events : list event :=
  [StPageConfig "Article Summarizer" "wide";
   StTitle "📝 Article Summarization Tool";
   StMarkdown "
    Summarize lengthy articles using NLP techniques.
    Paste text directly or provide a URL.
    "].

Definition options_events : list event :=
  [StSubheader "Summarization Options"; StColumns 2;
   StSelectbox "Summary type:" summary_types;
   StSlider "Summary length:" 1 10 5;
   StButton "Generate Summary"].

(** Either the summary and its statistics and no error, or an error and no
    summary. *)
Definition all_or_error (tr : list event) : bool :=
  (existsb is_summary tr && existsb is_stats tr && negb (existsb is_error tr))
  || (existsb is_error tr && negb (existsb is_summary tr)).

(** The percentage of line 110 as a function of the two word counts, and
    the number the formula of the specification gives for them. *)
Definition reduction (orig_words summ_words : Z) : Q :=
  PyFloat.binary64
    (PyFloat.binary64 (inject_Z (orig_words - summ_words) / inject_Z orig_words)
     * inject_Z 100).

Definition exact_reduction (orig_words summ_words : Z) : Q :=
  ((inject_Z orig_words - inject_Z summ_words) / inject_Z orig_words * 100)%Q.

(** *** Further observations of a run *)

(** The classes of Python that derive from [BaseException] and not from
    [Exception]: an [except Exception] clause lets their instances pass. *)
Definition base_exception_only : list string :=
  ["BaseException"; "SystemExit"; "KeyboardInterrupt"; "GeneratorExit";
   "BaseExceptionGroup"; "CancelledError"].

(** [isinstance(e, Exception)], read off the name of the class.  The three
    exceptions the script raises itself are instances of [Exception]. *)
Definition isinstance_Exception (e : exn) : bool :=
  match e with
  | LibraryError cls _ => negb (existsb (String.eqb cls) base_exception_only)
  | UnboundLocalError _ | IndexError | ZeroDivisionError => true
  end.

Definition raises_Exception {A} (r : result A) : Prop :=
  match r with
  | inl e => isinstance_Exception e = true
  | inr _ => True
  end.

(** Whatever a call into the libraries raises is an instance of
    [Exception]. *)
Definition library_raises_Exception (lib : Library) : Prop :=
  (forall a, raises_Exception (article_download lib a)) /\
  (forall a, raises_Exception (article_parse lib a)) /\
  (forall text language, raises_Exception (PlaintextParser_from_string lib text language)) /\
  (forall p, raises_Exception (parser_document lib p)) /\
  (forall f doc n, raises_Exception (summarizer_call lib f doc n)) /\
  (forall task name, raises_Exception (pipeline lib task name)) /\
  (forall m text hi lo, raises_Exception (model_call lib m text hi lo)) /\
  (forall text, raises_Exception (word_tokenize lib text)).

(** [c in s] for a character. *)
Definition has_char (c : ascii) (s : string) : bool :=
  existsb (Ascii.eqb c) (list_ascii_of_string s).

Definition is_fetch (e : event) : bool :=
  match e with CallGetArticleText _ => true | _ => false end.

Definition is_sumy_call (e : event) : bool :=
  match e with CallSumy _ _ _ | CallRank _ _ => true | _ => false end.

Definition is_abstractive_call (e : event) : bool :=
  match e with CallAbstractive _ _ _ => true | _ => false end.

Definition is_lexrank (e : event) : bool :=
  match e with CallRank LexRankSummarizer _ => true | _ => false end.

(** The length bounds an event hands to the abstractive summarizer are
    [30 * v] and [30]. *)
Definition abstractive_bounds_are (v : Z) (e : event) : bool :=
  match e with
  | CallAbstractive _ max_length min_length =>
      (max_length =? v * 30) && (min_length =? 30)
  | _ => true
  end.

(** The length bounds an event hands to the abstractive summarizer: a
    maximum between 30 and 300, a minimum not above the maximum. *)
Definition abstractive_in_range (e : event) : bool :=
  match e with
  | CallAbstractive _ max_length min_length =>
      (30 <=? max_length) && (max_length <=? 300) && (min_length <=? max_length)
  | _ => true
  end.

(** The extractive options whose derived tag the summarizer knows, with that
    tag and the strategy it selects. *)
Definition working_options : list (string * string * summarizer) :=
  [("Extractive (LSA)", "lsa", LsaSummarizer);
   ("Extractive (Luhn)", "luhn", LuhnSummarizer);
   ("Extractive (TextRank)", "textrank", TextRankSummarizer)].

(** The text an event hands to a summarizer is [t]. *)
Definition call_text_is (t : string) (e : event) : bool :=
  match e with
  | CallSumy text _ _ | CallAbstractive text _ _ => String.eqb text t
  | _ => true
  end.

(** The value of [text] on line 73, after the input phase. *)
Definition acquired_text (st : Streamlit) (lib : Library) : string :=
  match fst (main_input st lib (init ∅)) with
  | inr text => text
  | inl _ => ""
  end.

(** ** A stand-in for the form and the libraries, to run the script on
    concrete inputs *)

Module Demo.

(** A user who chose [input_method], typed [text] or [url], selected
    [summary_type], moved the slider to [length] and did or did not press
    the button. *)
Definition session (input_method text url summary_type : string) (length : Z)
    (pressed : bool) : Streamlit :=
  {| radio_value := fun _ _ => input_method;
     text_area_value := fun _ => text;
     text_input_value := fun _ => url;
     selectbox_value := fun _ _ => summary_type;
     slider_value := fun _ lo hi v => if (lo <=? length) && (length <=? hi) then length else v;
     button_value := fun _ => pressed;
     slider_in_range := ltac:(intros label lo hi v H; cbn;
       destruct (Z.leb_spec lo length), (Z.leb_spec length hi); cbn; lia) |}.

Definition blank (s : string) : bool :=
  forallb (Ascii.eqb " ") (list_ascii_of_string s).

Definition pieces (sep : ascii) (s : string) : list string :=
  List.filter (fun p => negb (blank p)) (PyStr.split sep s).

Fixpoint lstrip (s : string) : string :=
  match s with
  | String c s' => if Ascii.eqb c " " then lstrip s' else s
  | EmptyString => EmptyString
  end.

Definition sentences (s : string) : list string :=
  map (fun p => String.append (lstrip p) ".") (pieces "." s).

(** Words are the runs between spaces, sentences the runs closed by a full
    stop; the ranker keeps the leading sentences, the model the first one; a
    URL is fetched when it starts with [http]. *)
Definition library : Library :=
  {| article := string;
     Article := fun url => url;
     article_download := fun a => inr a;
     article_parse := fun a =>
       if String.prefix "http" a then inr a
       else inl (LibraryError "ArticleException" "Article `download()` failed");
     article_text := fun _ => "Fetched body. Second sentence.";
     parser := string;
     document := list string;
     sentence := string;
     PlaintextParser_from_string := fun text _ => inr text;
     parser_document := fun p => inr (sentences p);
     summarizer_call := fun _ doc n => inr (firstn (Z.to_nat n) doc);
     sentence_str := fun x => x;
     model := unit;
     pipeline := fun _ _ => inr tt;
     model_call := fun _ text _ _ => inr (PyStr.join " " (firstn 1 (sentences text)));
     word_tokenize := fun s => inr (pieces " " s) |}.

(** A downloader that reaches its server: a missing package is installed,
    a present one is left as it is. *)
Definition nltk : Nltk :=
  {| download_flag := fun _ _ => true;
     download_data := fun name data => {[ name ]} ∪ data |}.

(** A downloader without network: nothing is installed, the flag is
    [False]. *)
Definition nltk_offline : Nltk :=
  {| download_flag := fun _ _ => false;
     download_data := fun _ data => data |}.

(** The same library on a machine where the tokenizer's data is missing:
    [word_tokenize] raises. *)
Definition library_without_punkt : Library :=
  {| article := string;
     Article := fun url => url;
     article_download := article_download library;
     article_parse := article_parse library;
     article_text := article_text library;
     parser := string;
     document := list string;
     sentence := string;
     PlaintextParser_from_string := PlaintextParser_from_string library;
     parser_document := parser_document library;
     summarizer_call := summarizer_call library;
     sentence_str := sentence_str library;
     model := unit;
     pipeline := pipeline library;
     model_call := model_call library;
     word_tokenize := fun _ => inl (LibraryError "LookupError" "Resource punkt not found.") |}.

End Demo.

(** ** Running the script symbolically *)

(** Unfolds the script down to the case analyses on what the form and the
    libraries return. *)
Ltac unfold_script :=
  cbv [run_trace init script module_setup nltk_download
       main main_header main_input main_options main_generate main_summarize
       main_stats method_of index true_div
       sumy_summarizer abstractive_summarizer get_article_text read_local
       st_set_page_config st_title st_markdown st_subheader st_write st_error
       st_spinner st_columns st_success st_radio st_text_area st_text_area_with
       st_text_input st_selectbox st_slider st_button
       bind ret raise lift emit try_except trace nltk_data fst snd].

(** Splits on a scrutinee that is itself free of case analyses. *)
Ltac split_match :=
  match goal with
  | |- context [match ?x with _ => _ end] =>
      lazymatch x with
      | context [match _ with _ => _ end] => fail
      | _ => destruct x eqn:?
      end
  end.

Ltac norm_trace := rewrite <- ?app_assoc; cbn [app]; rewrite ?app_nil_r.

Ltac run_script :=
  unfold_script; cbn [app]; repeat (split_match; cbv beta iota; cbn [app]).

(** Proves [runs c r evs] by running [c] from an arbitrary state. *)
Ltac solve_runs := intros ?; run_script; norm_trace; reflexivity.

(** Proves [runs c r evs] for a closed [c] by evaluation. *)
Ltac eval_runs := intros [? ?]; cbv -[app]; norm_trace; reflexivity.

(** ** The monad's runs *)

Lemma runs_det {A} (c : M A) r r' evs evs' :
  runs c r evs -> runs c r' evs' -> r = r' /\ evs = evs'.
Proof.
  intros H H'. specialize (H (init ∅)). rewrite (H' (init ∅)) in H.
  cbn in H. now inversion H.
Qed.

Lemma runs_trace {A} (c : M A) r evs data :
  runs c r evs -> run_trace c data = evs /\ fst (c (init data)) = r.
Proof. intros H. unfold run_trace. now rewrite (H (init data)). Qed.

Lemma runs_ret {A} (a : A) : runs (ret a) (inr a) [].
Proof. intros [tr d]. unfold ret. cbn. now rewrite app_nil_r. Qed.

Lemma runs_raise {A} (e : exn) : runs (@raise A e) (inl e) [].
Proof. intros [tr d]. unfold raise. cbn. now rewrite app_nil_r. Qed.

Lemma runs_lift {A} (r : result A) : runs (lift r) r [].
Proof. intros [tr d]. unfold lift. cbn. now rewrite app_nil_r. Qed.

Lemma runs_emit (e : event) : runs (emit e) (inr tt) [e].
Proof. now intros s. Qed.

Lemma runs_bind {A B} (c : M A) (k : A -> M B) a evs r evs' evs'' :
  runs c (inr a) evs -> runs (k a) r evs' -> evs'' = evs ++ evs' ->
  runs (bind c k) r evs''.
Proof.
  intros Hc Hk -> s. unfold bind. rewrite Hc, Hk. cbn. now rewrite app_assoc.
Qed.

Lemma runs_bind_raise {A B} (c : M A) (k : A -> M B) e evs :
  runs c (inl e) evs -> runs (bind c k) (inl e) evs.
Proof. intros Hc s. unfold bind. now rewrite Hc. Qed.

Lemma runs_try {A} (c : M A) (h : exn -> M A) a evs :
  runs c (inr a) evs -> runs (try_except c h) (inr a) evs.
Proof. intros Hc s. unfold try_except. now rewrite Hc. Qed.

Lemma runs_except {A} (c : M A) (h : exn -> M A) e evs r evs' evs'' :
  runs c (inl e) evs -> runs (h e) r evs' -> evs'' = evs ++ evs' ->
  runs (try_except c h) r evs''.
Proof.
  intros Hc Hh -> s. unfold try_except. rewrite Hc, Hh. cbn. now rewrite app_assoc.
Qed.

(** ** The tag the shell derives and the tags the summarizer knows *)

Lemma select_summarizer_none (tag : string) :
  select_summarizer tag = None <-> ~ In tag recognized_tags.
Proof.
  unfold select_summarizer, recognized_tags. cbn [In].
  destruct (String.eqb_spec tag "lsa"); [split; [discriminate | intuition congruence] |].
  destruct (String.eqb_spec tag "lex"); [split; [discriminate | intuition congruence] |].
  destruct (String.eqb_spec tag "luhn"); [split; [discriminate | intuition congruence] |].
  destruct (String.eqb_spec tag "textrank"); [split; [discriminate | intuition congruence] |].
  split; [intuition congruence | reflexivity].
Qed.

Lemma method_of_lsa : runs (method_of "Extractive (LSA)") (inr "lsa") [].
Proof. intros [tr d]. cbn. now rewrite app_nil_r. Qed.

Lemma method_of_luhn : runs (method_of "Extractive (Luhn)") (inr "luhn") [].
Proof. intros [tr d]. cbn. now rewrite app_nil_r. Qed.

Lemma method_of_textrank : runs (method_of "Extractive (TextRank)") (inr "textrank") [].
Proof. intros [tr d]. cbn. now rewrite app_nil_r. Qed.

Lemma method_of_lexrank : runs (method_of "Extractive (LexRank)") (inr "lexrank") [].
Proof. intros [tr d]. cbn. now rewrite app_nil_r. Qed.

(** Installing a package that is already there changes nothing. *)
Lemma install_present (name : string) (data : gset string) :
  name ∈ data -> {[ name ]} ∪ data = data.
Proof. intros H. apply subseteq_union_1_L. now apply singleton_subseteq_l. Qed.

Lemma filter_none {A} (P : A -> bool) (l : list A) :
  existsb P l = false -> List.filter P l = [].
Proof.
  induction l as [| a l IH]; [reflexivity |]. cbn.
  intros H. apply orb_false_elim in H. destruct H as [-> H]. auto.
Qed.

(** ** Floats and the percentage *)

Section Floats.

Import PyFloat.
Local Open Scope Q_scope.

Lemma round_half_even_comp (x y : Q) : x == y -> round_half_even x = round_half_even y.
Proof.
  intros H. unfold round_half_even. rewrite (Qfloor_comp _ _ H).
  now rewrite H.
Qed.

Lemma round_half_even_cases (x : Q) :
  (round_half_even x = Qfloor x /\ x - inject_Z (Qfloor x) <= 1 # 2) \/
  (round_half_even x = (Qfloor x + 1)%Z /\ 1 # 2 <= x - inject_Z (Qfloor x)).
Proof.
  unfold round_half_even.
  destruct (Qcompare_spec (x - inject_Z (Qfloor x)) (1 # 2)) as [E | L | G].
  - destruct (Z.even (Qfloor x)); [left | right]; rewrite E; split; trivial; apply Qle_refl.
  - left. split; [reflexivity | now apply Qlt_le_weak].
  - right. split; [reflexivity | now apply Qlt_le_weak].
Qed.

Lemma round_half_even_error (x : Q) :
  Qabs (inject_Z (round_half_even x) - x) <= 1 # 2.
Proof.
  pose proof (Qfloor_le x) as Hl. pose proof (Qlt_floor x) as Hu.
  rewrite inject_Z_plus in Hu.
  apply Qabs_Qle_condition.
  destruct (round_half_even_cases x) as [[-> H] | [-> H]];
    rewrite ?inject_Z_plus; change (inject_Z 1) with 1 in *; split; lra.
Qed.

Lemma round_half_even_le (x : Q) (n : Z) :
  x <= inject_Z n -> (round_half_even x <= n)%Z.
Proof.
  intros H. pose proof (Qfloor_le x) as Hl.
  destruct (round_half_even_cases x) as [[-> _] | [-> Hh]].
  - rewrite Zle_Qle. lra.
  - assert (Hlt : inject_Z (Qfloor x) < inject_Z n) by lra.
    rewrite <- Zlt_Qlt in Hlt. lia.
Qed.

Lemma round_half_even_ge (x : Q) (n : Z) :
  inject_Z n <= x -> (n <= round_half_even x)%Z.
Proof.
  intros H. pose proof (Qlt_floor x) as Hu.
  assert (Hlt : inject_Z n < inject_Z (Qfloor x + 1)) by lra.
  rewrite <- Zlt_Qlt in Hlt.
  destruct (round_half_even_cases x) as [[-> _] | [-> _]]; lia.
Qed.

Lemma two_neq_0 : ~ 2 == 0.
Proof. discriminate. Qed.

Lemma pow2_pos (k : Z) : 0 < 2 ^ k.
Proof. now apply Qpower_0_lt. Qed.

Lemma exponent_le (x : Q) : 0 < x -> 2 ^ exponent x <= x.
Proof.
  intros Hx. unfold exponent.
  destruct (Qle_bool _ x) eqn:E; [now apply Qle_bool_iff |]. clear E.
  destruct x as [p q]. cbn [Qnum Qden].
  assert (Hp : (0 < p)%Z) by (unfold Qlt in Hx; cbn in Hx; lia).
  destruct (Z.log2_spec p Hp) as [Ha _].
  destruct (Z.log2_spec (Zpos q) (Pos2Z.is_pos q)) as [_ Hb].
  pose proof (Z.log2_nonneg p) as Ha0. pose proof (Z.log2_nonneg (Zpos q)) as Hb0.
  replace (Z.log2 p - Z.log2 (Zpos q) - 1)%Z
    with (Z.log2 p - Z.succ (Z.log2 (Zpos q)))%Z by lia.
  rewrite (Qpower_minus 2 _ _ two_neq_0).
  change 2 with (inject_Z 2). rewrite <- !Zpower_Qpower by lia.
  set (A := (2 ^ Z.log2 p)%Z) in *. set (B := (2 ^ Z.succ (Z.log2 (Zpos q)))%Z) in *.
  assert (HA : (0 < A)%Z) by (apply Z.pow_pos_nonneg; lia).
  apply Qle_shift_div_r; [unfold Qlt; cbn; lia |].
  unfold Qle. cbn. nia.
Qed.

(** The double nearest to a nonzero [x]: a multiple [m * ulp] of a power of
    two, with [m] nearest to [x / ulp], at least [2 ^ 52] in size. *)
Lemma binary64_spec (x : Q) :
  ~ x == 0 ->
  exists k : Z,
    2 ^ 52 * 2 ^ k <= Qabs x /\
    binary64 x == inject_Z (round_half_even (x / 2 ^ k)) * 2 ^ k.
Proof.
  intros Hx. unfold binary64.
  destruct (Qeq_bool (Qred x) 0) eqn:E.
  { apply Qeq_bool_iff in E. rewrite Qred_correct in E. contradiction. }
  clear E. exists (exponent (Qabs (Qred x)) - 52)%Z. split.
  - rewrite <- (Qpower_plus 2 _ _ two_neq_0).
    replace (52 + (exponent (Qabs (Qred x)) - 52))%Z
      with (exponent (Qabs (Qred x))) by lia.
    assert (Ha : Qabs (Qred x) == Qabs x) by apply Qabs_wd, Qred_correct.
    rewrite <- Ha. apply exponent_le. rewrite Ha.
    destruct (Qlt_le_dec 0 (Qabs x)) as [H | H]; [exact H |].
    exfalso. apply Hx.
    destruct (Qabs_Qle_condition x 0) as [Hc _].
    destruct (Hc H) as [H1 H2]. lra.
  - rewrite Qred_correct.
    rewrite (round_half_even_comp (Qred x / _) (x / 2 ^ (exponent (Qabs (Qred x)) - 52))).
    + reflexivity.
    + apply Qdiv_comp; [apply Qred_correct | reflexivity].
Qed.

Lemma binary64_comp (x y : Q) : x == y -> binary64 x = binary64 y.
Proof. intros H. unfold binary64. now rewrite (Qred_complete x y H). Qed.

Lemma binary64_0 (x : Q) : x == 0 -> binary64 x = 0.
Proof. intros H. now rewrite (binary64_comp x 0 H). Qed.

Lemma pow2_52 : 2 ^ 52 == 4503599627370496.
Proof. reflexivity. Qed.

Lemma Qdiv_mult_cancel (x u : Q) : 0 < u -> x / u * u == x.
Proof. intros H. field. lra. Qed.

Lemma binary64_pos (x : Q) : 0 < x -> 0 < binary64 x.
Proof.
  intros Hx. destruct (binary64_spec x) as (k & Hk & ->); [lra |].
  pose proof (pow2_pos k) as Hu. rewrite (Qabs_pos x) in Hk by lra.
  assert (Hy : inject_Z 1 <= x / 2 ^ k).
  { apply Qle_shift_div_l; [exact Hu |]. rewrite pow2_52 in Hk.
    change (inject_Z 1) with 1. lra. }
  apply round_half_even_ge in Hy. rewrite Zle_Qle in Hy.
  apply Qmult_lt_0_compat; [| exact Hu]. change (inject_Z 1) with 1 in Hy. lra.
Qed.

Lemma binary64_neg (x : Q) : x < 0 -> binary64 x < 0.
Proof.
  intros Hx. destruct (binary64_spec x) as (k & Hk & ->); [lra |].
  pose proof (pow2_pos k) as Hu. rewrite (Qabs_neg x) in Hk by lra.
  assert (Hy : x / 2 ^ k <= inject_Z (-1)).
  { apply Qle_shift_div_r; [exact Hu |]. rewrite pow2_52 in Hk.
    change (inject_Z (-1)) with (-1). lra. }
  apply round_half_even_le in Hy. rewrite Zle_Qle in Hy.
  change (inject_Z (-1)) with (-1) in Hy.
  apply Qlt_le_trans with (0 * 2 ^ k).
  - apply Qmult_lt_compat_r; [exact Hu | lra].
  - rewrite Qmult_0_l. apply Qle_refl.
Qed.

(** The sign of a double is the sign of the number it rounds. *)
Lemma binary64_sign (x : Q) :
  (binary64 x < 0 <-> x < 0) /\ (0 < binary64 x <-> 0 < x).
Proof.
  destruct (Q_dec x 0) as [[H | H] | H].
  - pose proof (binary64_neg x H). split; split; intros; lra.
  - pose proof (binary64_pos x H). split; split; intros; lra.
  - rewrite (binary64_0 x H). split; split; intros; lra.
Qed.

(** Rounding to a double changes a number by at most [2 ^ -53] of its
    size. *)
Lemma binary64_error (x : Q) :
  Qabs (binary64 x - x) <= Qabs x * (1 # 9007199254740992).
Proof.
  destruct (Qeq_dec x 0) as [H | H].
  { rewrite (binary64_0 x H), H. discriminate. }
  destruct (binary64_spec x H) as (k & Hk & ->).
  pose proof (pow2_pos k) as Hu. rewrite pow2_52 in Hk.
  pose proof (round_half_even_error (x / 2 ^ k)) as He.
  set (m := inject_Z (round_half_even (x / 2 ^ k))) in *.
  assert (E : m * 2 ^ k - x == (m - x / 2 ^ k) * 2 ^ k) by (field; lra).
  rewrite E, Qabs_Qmult, (Qabs_pos (2 ^ k)) by lra.
  apply Qle_trans with ((1 # 2) * 2 ^ k).
  - apply Qmult_le_compat_r; [exact He | lra].
  - lra.
Qed.

(** A double does not pass an integer below [2 ^ 53] that the number it
    rounds does not pass. *)
Lemma binary64_le_Z (x : Q) (c : Z) :
  (0 <= c < 2 ^ 53)%Z -> x <= inject_Z c -> binary64 x <= inject_Z c.
Proof.
  intros Hc Hx.
  assert (Hc0 : 0 <= inject_Z c) by (rewrite <- (Zle_Qle 0); lia).
  destruct (Q_dec x 0) as [[H | H] | H].
  - pose proof (binary64_neg x H). lra.
  - destruct (binary64_spec x) as (k & Hk & ->); [lra |].
    pose proof (pow2_pos k) as Hu. rewrite (Qabs_pos x) in Hk by lra.
    assert (Hc53 : inject_Z c < 2 ^ 53).
    { change (2 ^ 53) with (inject_Z (2 ^ 53)%Z). rewrite <- Zlt_Qlt. lia. }
    assert (Hk0 : (k <= 0)%Z).
    { assert (Hlt : 2 ^ k < 2 ^ 1).
      { rewrite pow2_52 in Hk. change (2 ^ 53) with 9007199254740992 in Hc53.
        change (2 ^ 1) with 2. lra. }
      apply Qpower_lt_compat_l_inv in Hlt; [lia | reflexivity]. }
    assert (EN : inject_Z (c * 2 ^ (- k))%Z == inject_Z c / 2 ^ k).
    { rewrite inject_Z_mult, Zpower_Qpower by lia.
      change (inject_Z 2) with 2. rewrite Qpower_opp. field.
      apply Qpower_not_0. discriminate. }
    assert (Hy : x / 2 ^ k <= inject_Z (c * 2 ^ (- k))%Z).
    { rewrite EN. apply Qle_shift_div_l; [exact Hu |].
      rewrite Qdiv_mult_cancel by exact Hu. exact Hx. }
    apply round_half_even_le in Hy. rewrite Zle_Qle, EN in Hy.
    apply (Qmult_le_compat_r _ _ (2 ^ k)) in Hy; [| lra].
    now rewrite Qdiv_mult_cancel in Hy by exact Hu.
  - rewrite (binary64_0 x H). exact Hc0.
Qed.

Lemma inject_Z_nonzero (o : Z) : (o <> 0)%Z -> ~ inject_Z o == 0.
Proof. intros H E. apply H. unfold Qeq in E. cbn in E. lia. Qed.

Lemma reduction_equal (o : Z) : (o <> 0)%Z -> reduction o o = 0.
Proof.
  intros H. unfold reduction. rewrite Z.sub_diag.
  rewrite (binary64_0 (inject_Z 0 / inject_Z o)); [reflexivity |].
  unfold Qdiv. apply Qmult_0_l.
Qed.

Lemma reduction_none (o : Z) : (o <> 0)%Z -> reduction o 0 = 100.
Proof.
  intros H. unfold reduction. rewrite Z.sub_0_r.
  rewrite (binary64_comp (inject_Z o / inject_Z o) 1); [reflexivity |].
  field. now apply inject_Z_nonzero.
Qed.

Lemma quotient_le_1 (o w : Z) :
  (0 < o)%Z -> (0 <= w)%Z -> inject_Z (o - w) / inject_Z o <= 1.
Proof.
  intros Ho Hw. apply Qle_shift_div_r; [now rewrite <- (Zlt_Qlt 0) |].
  rewrite Qmult_1_l, <- Zle_Qle. lia.
Qed.

Lemma quotient_negative (o w : Z) :
  (0 < o)%Z -> (inject_Z (o - w) / inject_Z o < 0 <-> (o < w)%Z).
Proof.
  intros Ho. assert (Hq : 0 < inject_Z o) by now rewrite <- (Zlt_Qlt 0).
  split; intros H.
  - apply (Qmult_lt_compat_r _ _ (inject_Z o)) in H; [| exact Hq].
    rewrite Qdiv_mult_cancel, Qmult_0_l, <- (Zlt_Qlt _ 0) in H by exact Hq. lia.
  - apply Qlt_shift_div_r; [exact Hq |]. rewrite Qmult_0_l, <- (Zlt_Qlt _ 0). lia.
Qed.

Lemma reduction_le_100 (o w : Z) :
  (0 < o)%Z -> (0 <= w)%Z -> reduction o w <= 100.
Proof.
  intros Ho Hw. unfold reduction.
  pose proof (binary64_le_Z _ 1 ltac:(cbn; lia) (quotient_le_1 o w Ho Hw)) as H.
  apply (binary64_le_Z _ 100); [cbn; lia |].
  change (inject_Z 1) with 1 in H. change (inject_Z 100) with 100. lra.
Qed.

Lemma reduction_negative (o w : Z) :
  (0 < o)%Z -> (reduction o w < 0 <-> (o < w)%Z).
Proof.
  intros Ho. unfold reduction. rewrite <- (quotient_negative o w Ho).
  set (x := inject_Z (o - w) / inject_Z o).
  destruct (binary64_sign (binary64 x * inject_Z 100)) as [-> _].
  destruct (binary64_sign x) as [<- _].
  change (inject_Z 100) with 100. split; intros; lra.
Qed.

(** The computed percentage differs from the exact one by at most
    [2 ^ -51] of its size. *)
Lemma reduction_error (o w : Z) :
  (o <> 0)%Z ->
  Qabs (reduction o w - exact_reduction o w)
  <= Qabs (exact_reduction o w) * (1 # 2251799813685248).
Proof.
  intros Ho. unfold reduction, exact_reduction.
  assert (E : (inject_Z o - inject_Z w) / inject_Z o == inject_Z (o - w) / inject_Z o).
  { unfold Z.sub. now rewrite inject_Z_plus, inject_Z_opp. }
  rewrite E. change (inject_Z 100) with 100.
  set (x := inject_Z (o - w) / inject_Z o).
  pose proof (binary64_error x) as H1.
  pose proof (binary64_error (binary64 x * 100)) as H2.
  set (a := binary64 x) in *. set (b := binary64 (a * 100)) in *.
  rewrite Qabs_Qmult in H2 |- *. change (Qabs 100) with 100 in *.
  assert (H3 : Qabs a <= Qabs x + Qabs (a - x)).
  { assert (Ea : Qabs a == Qabs (x + (a - x))) by (apply Qabs_wd; ring).
    rewrite Ea. apply Qabs_triangle. }
  assert (H4 : Qabs (b - x * 100) <= Qabs (b - a * 100) + Qabs (a - x) * 100).
  { assert (Eb : Qabs (b - x * 100) == Qabs ((b - a * 100) + (a - x) * 100))
      by (apply Qabs_wd; ring).
    rewrite Eb. eapply Qle_trans; [apply Qabs_triangle |].
    rewrite (Qabs_Qmult (a - x)). change (Qabs 100) with 100. apply Qle_refl. }
  pose proof (Qabs_nonneg x). lra.
Qed.

(** The one-decimal number shown differs from the number formatted by at
    most one twentieth. *)
Lemma format_1f_error (x : Q) : Qabs (format_1f x - x) <= 1 # 20.
Proof.
  unfold format_1f. rewrite Qred_correct.
  pose proof (round_half_even_error (x * 10)) as H.
  set (m := inject_Z (round_half_even (x * 10))) in *.
  apply Qabs_Qle_condition. apply Qabs_Qle_condition in H.
  assert (E : m / 10 == m * (1 # 10)) by (field; discriminate).
  rewrite E. lra.
Qed.

Lemma reduction_shown_error (o w : Z) :
  (o <> 0)%Z ->
  Qabs (format_1f (reduction o w) - exact_reduction o w)
  <= (1 # 20) + Qabs (exact_reduction o w) * (1 # 2251799813685248).
Proof.
  intros Ho. pose proof (reduction_error o w Ho) as H1.
  pose proof (format_1f_error (reduction o w)) as H2.
  assert (E : Qabs (format_1f (reduction o w) - exact_reduction o w)
              == Qabs ((format_1f (reduction o w) - reduction o w)
                       + (reduction o w - exact_reduction o w)))
    by (apply Qabs_wd; ring).
  rewrite E. eapply Qle_trans; [apply Qabs_triangle |]. lra.
Qed.

(** With a summary no longer than the text, the percentage is within [eps]
    of 100, up to the rounding, once [100 * w < eps * o]. *)
Lemma reduction_near_100 (o w : Z) (eps : Q) :
  (0 < o)%Z -> (0 <= w <= o)%Z ->
  100 * inject_Z w < eps * inject_Z o ->
  100 - reduction o w < eps + (100 # 2251799813685248).
Proof.
  intros Ho Hw Hlt.
  assert (Hq : 0 < inject_Z o) by now rewrite <- (Zlt_Qlt 0).
  pose proof (reduction_error o w ltac:(lia)) as He.
  assert (E : exact_reduction o w == 100 - 100 * (inject_Z w / inject_Z o)).
  { unfold exact_reduction. field. lra. }
  assert (H0 : 0 <= inject_Z w / inject_Z o).
  { apply Qle_shift_div_l; [exact Hq |]. rewrite Qmult_0_l, <- (Zle_Qle 0). lia. }
  assert (H1 : inject_Z w / inject_Z o <= 1).
  { apply Qle_shift_div_r; [exact Hq |]. rewrite Qmult_1_l, <- Zle_Qle. lia. }
  assert (H2 : 100 * (inject_Z w / inject_Z o) < eps).
  { unfold Qdiv. rewrite Qmult_assoc. now apply Qlt_shift_div_r. }
  rewrite (Qabs_pos (exact_reduction o w)) in He by lra.
  apply Qabs_Qle_condition in He. lra.
Qed.

End Floats.

Section Properties.

Variable st : Streamlit.
Variable lib : Library.

(** What [sumy_summarizer] does with a tag that none of the four comparisons
    accepts: the parser is built, then reading [summarizer] raises. *)
Lemma sumy_summarizer_unbound (text tag : string) (n : Z) :
  select_summarizer tag = None ->
  runs (sumy_summarizer lib text tag n)
       (inl match PlaintextParser_from_string lib text "english" with
            | inl e => e
            | inr _ => UnboundLocalError "summarizer"
            end)
       [CallSumy text tag n].
Proof.
  intros Hsel s. unfold sumy_summarizer. rewrite Hsel.
  unfold_script. now destruct (PlaintextParser_from_string lib text "english").
Qed.

(** *** The statistics block *)

Lemma main_stats_shown (text summary : string) (wo ws : list string) :
  word_tokenize lib text = inr wo ->
  word_tokenize lib summary = inr ws ->
  Z.of_nat (length wo) <> 0 ->
  runs (main_stats lib text summary) (inr tt)
       [StSuccess (Z.of_nat (length wo)) (Z.of_nat (length ws))
                  (reduction (Z.of_nat (length wo)) (Z.of_nat (length ws)))].
Proof.
  intros Ho Hs Hz s. unfold main_stats, true_div.
  apply Z.eqb_neq in Hz.
  unfold bind, lift, ret, st_success, emit. now rewrite Ho, Hs, Hz.
Qed.

Lemma main_stats_zero (text summary : string) (ws : list string) :
  word_tokenize lib text = inr [] ->
  word_tokenize lib summary = inr ws ->
  runs (main_stats lib text summary) (inl ZeroDivisionError) [].
Proof.
  intros Ho Hs [tr d]. unfold main_stats, true_div.
  unfold bind, lift, raise. rewrite Ho, Hs. cbn. now rewrite app_nil_r.
Qed.

(** *** The generation handler *)

Lemma main_generate_raises (text ty : string) (n : Z) e evs :
  runs (main_summarize lib text ty n) (inl e) evs ->
  runs (main_generate lib text ty n) (inr tt)
       ([StSpinner "Generating summary..."] ++ evs ++ [StError e]).
Proof.
  intros H. unfold main_generate.
  eapply runs_bind; [apply runs_emit | | reflexivity].
  eapply runs_except; [apply runs_bind_raise, H | apply runs_emit | reflexivity].
Qed.

Lemma main_generate_stats_shown (text ty : string) (n : Z) summary evs evs' :
  runs (main_summarize lib text ty n) (inr summary) evs ->
  runs (main_stats lib text summary) (inr tt) evs' ->
  runs (main_generate lib text ty n) (inr tt)
       ([StSpinner "Generating summary..."] ++ evs ++ [StWrite summary] ++ evs').
Proof.
  intros H Hst. unfold main_generate.
  eapply runs_bind; [apply runs_emit | | reflexivity].
  apply runs_try.
  eapply runs_bind; [apply H | | reflexivity].
  eapply runs_bind; [apply runs_emit | apply Hst | reflexivity].
Qed.

Lemma main_generate_stats_raise (text ty : string) (n : Z) summary evs e evs' :
  runs (main_summarize lib text ty n) (inr summary) evs ->
  runs (main_stats lib text summary) (inl e) evs' ->
  runs (main_generate lib text ty n) (inr tt)
       ([StSpinner "Generating summary..."] ++ evs ++ [StWrite summary] ++ evs' ++ [StError e]).
Proof.
  intros H Hst. unfold main_generate.
  eapply runs_bind; [apply runs_emit | | reflexivity].
  eapply runs_except;
    [ eapply runs_bind;
        [ apply H
        | eapply runs_bind; [apply runs_emit | apply Hst | reflexivity]
        | reflexivity ]
    | apply runs_emit
    | now rewrite <- !app_assoc ].
Qed.

(** The summarizer block always ends, and renders neither a summary body,
    nor statistics, nor an error; when it raises it has rendered nothing at
    all (its heading comes after the summarizer returned). *)
Lemma main_summarize_total (text ty : string) (n : Z) :
  exists r evs, runs (main_summarize lib text ty n) r evs.
Proof.
  exists (fst (main_summarize lib text ty n (init ∅))),
         (run_trace (main_summarize lib text ty n) ∅).
  unfold select_summarizer. solve_runs.
Qed.

Lemma main_summarize_events (text ty : string) (n : Z) r evs :
  runs (main_summarize lib text ty n) r evs ->
  existsb is_summary evs = false /\ existsb is_stats evs = false /\
  existsb is_error evs = false /\
  (forall e, r = inl e -> forallb is_summarizer_call evs = true).
Proof.
  intros H. apply (runs_trace _ _ _ ∅) in H. destruct H as [<- <-].
  unfold select_summarizer. run_script; cbn; repeat split; try reflexivity;
    intros ? [=].
Qed.

(** When the summarizer block returns, it has recorded the calls of the
    chosen summarizer and, last, the heading of the option's family. *)
Lemma main_summarize_heading (text ty : string) (n : Z) summary evs :
  runs (main_summarize lib text ty n) (inr summary) evs ->
  exists calls,
    evs = calls ++ [StSubheader (if PyStr.contains "Extractive" ty
                                 then "📋 Extractive Summary"
                                 else "✨ Abstractive Summary")] /\
    forallb is_summarizer_call calls = true.
Proof.
  intros H. apply (runs_trace _ _ _ ∅) in H. destruct H as [<- Hr]. revert Hr.
  unfold select_summarizer. run_script; cbn; intros [=];
    match goal with
    | |- exists calls, ?l = _ /\ _ => exists (removelast l); split; reflexivity
    end.
Qed.

(** C3, as amended.  When the chosen summarizer raises, the handler shows
    the error message and nothing of a summary: no heading, no body, no
    statistics.  When it returns, and both word tokenizations return with a
    nonzero original count, the handler shows, after the calls of the
    summarizer, the heading of the option's family, the summary and then the
    statistics, and no error.  (The summary is written before the
    statistics are computed.) *)
Theorem generate_summary_or_error (text ty : string) (n : Z) r evs :
  runs (main_summarize lib text ty n) r evs ->
  (forall e, r = inl e ->
     exists tr,
       tr = [StSpinner "Generating summary..."] ++ evs ++ [StError e] /\
       runs (main_generate lib text ty n) (inr tt) tr /\
       forallb is_summarizer_call evs = true /\
       existsb is_summary tr = false /\ existsb is_stats tr = false /\
       all_or_error tr = true) /\
  (forall summary wo ws,
     r = inr summary ->
     word_tokenize lib text = inr wo ->
     word_tokenize lib summary = inr ws ->
     Z.of_nat (length wo) <> 0 ->
     exists calls tr,
       forallb is_summarizer_call calls = true /\
       evs = calls ++ [StSubheader (if PyStr.contains "Extractive" ty
                                    then "📋 Extractive Summary"
                                    else "✨ Abstractive Summary")] /\
       tr = [StSpinner "Generating summary..."] ++ calls ++
            [StSubheader (if PyStr.contains "Extractive" ty
                          then "📋 Extractive Summary"
                          else "✨ Abstractive Summary");
             StWrite summary;
             StSuccess (Z.of_nat (length wo)) (Z.of_nat (length ws))
                       (reduction (Z.of_nat (length wo)) (Z.of_nat (length ws)))] /\
       runs (main_generate lib text ty n) (inr tt) tr /\
       existsb is_error tr = false /\
       all_or_error tr = true).
Proof.
  intros H. destruct (main_summarize_events _ _ _ _ _ H) as (Hsum & Hst & Herr & Hcalls).
  split.
  - intros e ->. eexists. split; [reflexivity |].
    split; [now apply main_generate_raises |].
    split; [exact (Hcalls e eq_refl) |].
    unfold all_or_error. cbn [app existsb is_summary is_stats is_error].
    rewrite !existsb_app, Hsum, Hst, Herr. now cbn.
  - intros summary wo ws -> Ho Hs Hz.
    destruct (main_summarize_heading _ _ _ _ _ H) as (calls & Hevs & Hc).
    exists calls. eexists. split; [exact Hc |]. split; [exact Hevs |].
    split; [reflexivity |].
    assert (Hrun : runs (main_generate lib text ty n) (inr tt)
                     ([StSpinner "Generating summary..."] ++ evs ++
                      [StWrite summary] ++
                      [StSuccess (Z.of_nat (length wo)) (Z.of_nat (length ws))
                         (reduction (Z.of_nat (length wo)) (Z.of_nat (length ws)))])).
    { eapply main_generate_stats_shown; [exact H |]. now apply main_stats_shown. }
    rewrite Hevs in Hrun, Hsum, Hst, Herr. rewrite <- !app_assoc in Hrun.
    split; [exact Hrun |].
    rewrite existsb_app in Hsum, Hst, Herr.
    apply orb_false_elim in Hsum, Hst, Herr.
    destruct Hsum as [Hsum _], Hst as [Hst _], Herr as [Herr _].
    unfold all_or_error. cbn [app existsb is_summary is_stats is_error].
    rewrite !existsb_app, Hsum, Hst, Herr. now cbn.
Qed.

(** C4, as amended.  Whenever a generation reaches the statistics with an
    original word count [W_o > 0] and a summary word count [W_s], the
    percentage handed to the statistics block is the float computed on line
    110, [(W_o - W_s) / W_o] rounded to a double, times 100, rounded again.
    It equals [(W_o - W_s) / W_o * 100] up to that rounding: the two differ
    by at most [2 ^ -51] of the exact value, and the one-decimal number on
    the page by at most 0.05 more.  It is exactly 0 when [W_s = W_o] and
    exactly 100 when [W_s = 0]; for a summary no longer than the text, its
    distance to 100 is below [eps], up to the rounding, once
    [100 * W_s < eps * W_o]. *)
Theorem reduction_up_to_rounding (text ty : string) (n : Z) summary evs wo ws :
  runs (main_summarize lib text ty n) (inr summary) evs ->
  word_tokenize lib text = inr wo ->
  word_tokenize lib summary = inr ws ->
  0 < Z.of_nat (length wo) ->
  exists ratio : Q,
    runs (main_generate lib text ty n) (inr tt)
         ([StSpinner "Generating summary..."] ++ evs ++
          [StWrite summary;
           StSuccess (Z.of_nat (length wo)) (Z.of_nat (length ws)) ratio]) /\
    ratio = reduction (Z.of_nat (length wo)) (Z.of_nat (length ws)) /\
    (Qabs (ratio - exact_reduction (Z.of_nat (length wo)) (Z.of_nat (length ws)))
     <= Qabs (exact_reduction (Z.of_nat (length wo)) (Z.of_nat (length ws)))
        * (1 # 2251799813685248))%Q /\
    (Qabs (PyFloat.format_1f ratio
           - exact_reduction (Z.of_nat (length wo)) (Z.of_nat (length ws)))
     <= (1 # 20)
        + Qabs (exact_reduction (Z.of_nat (length wo)) (Z.of_nat (length ws)))
          * (1 # 2251799813685248))%Q /\
    (length ws = length wo -> ratio = 0%Q) /\
    (length ws = 0%nat -> ratio = 100%Q) /\
    (forall eps : Q,
        (length ws <= length wo)%nat ->
        (100 * inject_Z (Z.of_nat (length ws)) < eps * inject_Z (Z.of_nat (length wo)) ->
         100 - ratio < eps + (100 # 2251799813685248))%Q).
Proof.
  intros H Ho Hs Hpos.
  exists (reduction (Z.of_nat (length wo)) (Z.of_nat (length ws))).
  split.
  { eapply main_generate_stats_shown; [exact H |]. apply main_stats_shown; trivial. lia. }
  split; [reflexivity |].
  split; [apply reduction_error; lia |].
  split; [apply reduction_shown_error; lia |].
  split; [intros ->; apply reduction_equal; lia |].
  split; [intros ->; apply reduction_none; lia |].
  intros eps Hle. apply reduction_near_100; lia.
Qed.

(** *** [main], block by block *)

Lemma main_header_runs : runs main_header (inr tt) header_events.
Proof.
  unfold main_header, header_events.
  eapply runs_bind; [apply runs_emit | | reflexivity].
  eapply runs_bind; [apply runs_emit | apply runs_emit | reflexivity].
Qed.

Lemma st_radio_runs label options :
  runs (st_radio st label options) (inr (radio_value st label options))
       [StRadio label options].
Proof. eapply runs_bind; [apply runs_emit | apply runs_ret | reflexivity]. Qed.

Lemma st_text_area_runs label :
  runs (st_text_area st label) (inr (text_area_value st label))
       [StTextArea label (text_area_value st label)].
Proof. eapply runs_bind; [apply runs_emit | apply runs_ret | reflexivity]. Qed.

Lemma st_text_input_runs label :
  runs (st_text_input st label) (inr (text_input_value st label)) [StTextInput label].
Proof. eapply runs_bind; [apply runs_emit | apply runs_ret | reflexivity]. Qed.

Lemma st_selectbox_runs label options :
  runs (st_selectbox st label options) (inr (selectbox_value st label options))
       [StSelectbox label options].
Proof. eapply runs_bind; [apply runs_emit | apply runs_ret | reflexivity]. Qed.

Lemma st_slider_runs label lo hi v :
  runs (st_slider st label lo hi v) (inr (slider_value st label lo hi v))
       [StSlider label lo hi v].
Proof. eapply runs_bind; [apply runs_emit | apply runs_ret | reflexivity]. Qed.

Lemma st_button_runs label :
  runs (st_button st label) (inr (button_value st label)) [StButton label].
Proof. eapply runs_bind; [apply runs_emit | apply runs_ret | reflexivity]. Qed.

(** The input phase on the Text path. *)
Lemma main_input_text :
  String.eqb (radio_value st "Input method:" ["Text"; "URL"]) "Text" = true ->
  runs (main_input st lib)
       (inr (text_area_value st "Paste your article text here:"))
       [StRadio "Input method:" ["Text"; "URL"];
        StTextArea "Paste your article text here:"
                   (text_area_value st "Paste your article text here:")].
Proof.
  intros Hm. unfold main_input.
  eapply runs_bind; [apply st_radio_runs | | reflexivity].
  rewrite Hm. apply st_text_area_runs.
Qed.

(** The input phase on the URL path when the fetch raises. *)
Lemma main_input_fetch_raises e evs :
  String.eqb (radio_value st "Input method:" ["Text"; "URL"]) "Text" = false ->
  truthy (text_input_value st "Enter article URL:") = true ->
  runs (get_article_text lib (text_input_value st "Enter article URL:")) (inl e) evs ->
  runs (main_input st lib) (inr "")
       ([StRadio "Input method:" ["Text"; "URL"]; StTextInput "Enter article URL:";
         StSpinner "Fetching article..."] ++ evs ++ [StError e]).
Proof.
  intros Hm Hu Hf. unfold main_input.
  eapply runs_bind; [apply st_radio_runs | | reflexivity].
  rewrite Hm.
  eapply runs_bind; [apply st_text_input_runs | | reflexivity].
  rewrite Hu.
  eapply runs_bind; [apply runs_emit | | reflexivity].
  eapply runs_except;
    [ apply runs_bind_raise, Hf
    | eapply runs_bind; [apply runs_emit | apply runs_ret | reflexivity]
    | reflexivity ].
Qed.

(** The options block: its five elements, then the handler if the button
    was pressed. *)
Lemma main_options_runs text r evs :
  runs (if button_value st "Generate Summary"
        then main_generate lib text (selectbox_value st "Summary type:" summary_types)
                           (slider_value st "Summary length:" 1 10 5)
        else ret tt) r evs ->
  runs (main_options st lib text) r (options_events ++ evs).
Proof.
  intros H. unfold main_options, options_events.
  eapply runs_bind; [apply runs_emit | | reflexivity].
  eapply runs_bind; [apply runs_emit | | reflexivity].
  eapply runs_bind; [apply st_selectbox_runs | | reflexivity].
  eapply runs_bind; [apply st_slider_runs | | reflexivity].
  eapply runs_bind; [apply st_button_runs | exact H | reflexivity].
Qed.

Lemma main_runs text evs r evs' :
  runs (main_input st lib) (inr text) evs ->
  runs (if truthy text then main_options st lib text else ret tt) r evs' ->
  runs (main st lib) r (header_events ++ evs ++ evs').
Proof.
  intros Hi Ho. unfold main.
  eapply runs_bind; [apply main_header_runs | | reflexivity].
  eapply runs_bind; [exact Hi | exact Ho | reflexivity].
Qed.

(** Whatever the form and the libraries return, [main] ends without an
    uncaught exception, and so does its input phase. *)
Lemma main_input_total :
  exists text evs, runs (main_input st lib) (inr text) evs.
Proof.
  assert (H : runs (main_input st lib) (fst (main_input st lib (init ∅)))
                (run_trace (main_input st lib) ∅)) by solve_runs.
  destruct (fst (main_input st lib (init ∅))) as [e | text] eqn:E; [| eauto].
  exfalso. revert E. clear H. run_script; discriminate.
Qed.

Lemma main_stats_total (text summary : string) :
  exists r evs, runs (main_stats lib text summary) r evs.
Proof.
  exists (fst (main_stats lib text summary (init ∅))),
         (run_trace (main_stats lib text summary) ∅).
  solve_runs.
Qed.

Lemma main_generate_total (text ty : string) (n : Z) :
  exists evs, runs (main_generate lib text ty n) (inr tt) evs.
Proof.
  destruct (main_summarize_total text ty n) as ([e | summary] & evs & H).
  - eexists. now apply main_generate_raises.
  - destruct (main_stats_total text summary) as ([e | []] & evs' & H').
    + eexists. eapply main_generate_stats_raise; eassumption.
    + eexists. eapply main_generate_stats_shown; eassumption.
Qed.

Lemma main_total : exists evs, runs (main st lib) (inr tt) evs.
Proof.
  destruct main_input_total as (text & evs & Hi).
  destruct (truthy text) eqn:Ht.
  - destruct (button_value st "Generate Summary") eqn:Hb.
    + destruct (main_generate_total text (selectbox_value st "Summary type:" summary_types)
                  (slider_value st "Summary length:" 1 10 5)) as (evs' & Hg).
      eexists. eapply main_runs; [exact Hi |]. rewrite Ht.
      apply main_options_runs. rewrite Hb. exact Hg.
    + eexists. eapply main_runs; [exact Hi |]. rewrite Ht.
      apply main_options_runs. rewrite Hb. apply runs_ret.
  - eexists. eapply main_runs; [exact Hi |]. rewrite Ht. apply runs_ret.
Qed.

(** The input phase renders the input form, a fetch and its error, and
    nothing else. *)
Lemma main_input_events r evs :
  runs (main_input st lib) r evs ->
  existsb is_option evs = false /\ existsb is_trigger evs = false /\
  existsb is_summarizer_call evs = false /\ existsb is_stats evs = false.
Proof.
  intros H. apply (runs_trace _ _ _ ∅) in H. destruct H as [<- _].
  run_script; cbn; repeat split; reflexivity.
Qed.

Lemma get_article_text_events url r evs :
  runs (get_article_text lib url) r evs -> evs = [CallGetArticleText url].
Proof.
  intros H. apply (runs_trace _ _ _ ∅) in H. destruct H as [<- _].
  run_script; reflexivity.
Qed.

(** Every event of a run of [main]: no download, and the extractive
    summarizer is handed the slider's value. *)
Lemma main_events (data : gset string) :
  forallb (fun e => negb (is_download e) &&
                    count_is (slider_value st "Summary length:" 1 10 5) e)
          (run_trace (main st lib) data) = true.
Proof.
  unfold select_summarizer. run_script; cbn; rewrite ?Z.eqb_refl; reflexivity.
Qed.

Lemma slider_length_bound :
  1 <= slider_value st "Summary length:" 1 10 5 <= 10.
Proof. apply slider_in_range. lia. Qed.

(** C5. When the user is on the URL path, has entered a URL, and fetching
    or parsing it raises, the run shows the form, the spinner and the
    message of that very exception, and ends: no options are rendered and
    no summarizer, extractive or abstractive, is called. *)
Theorem fetch_failure_shows_error (url : string) e evs :
  String.eqb (radio_value st "Input method:" ["Text"; "URL"]) "Text" = false ->
  text_input_value st "Enter article URL:" = url ->
  truthy url = true ->
  runs (get_article_text lib url) (inl e) evs ->
  exists tr,
    tr = header_events ++
         [StRadio "Input method:" ["Text"; "URL"]; StTextInput "Enter article URL:";
          StSpinner "Fetching article..."; CallGetArticleText url; StError e] /\
    runs (main st lib) (inr tt) tr /\
    existsb is_summarizer_call tr = false /\
    existsb is_option tr = false /\
    spec_shell_state tr = ErrorDisplayed.
Proof.
  intros Hm <- Hu Hf. eexists. split; [reflexivity |].
  split; [| repeat split; reflexivity].
  pose proof (get_article_text_events _ _ _ Hf) as ->.
  pose proof (main_input_fetch_raises _ _ Hm Hu Hf) as Hi.
  pose proof (main_runs _ _ _ _ Hi (runs_ret tt)) as H.
  cbn [app] in H. exact H.
Qed.

(** C7. When the input phase ends with the empty text and without an error
    (nothing pasted, no URL entered, or an article with an empty body), the
    run renders the input form and nothing after it: no summarization
    option, no Generate Summary button, no call of a summarizer; the shell
    is still awaiting input. *)
Theorem empty_text_not_actionable evs :
  runs (main_input st lib) (inr "") evs ->
  existsb is_error evs = false ->
  runs (main st lib) (inr tt) (header_events ++ evs) /\
  existsb is_option (header_events ++ evs) = false /\
  existsb is_trigger (header_events ++ evs) = false /\
  existsb is_summarizer_call (header_events ++ evs) = false /\
  spec_shell_state (header_events ++ evs) = AwaitingInput.
Proof.
  intros Hi Herr.
  destruct (main_input_events _ _ Hi) as (Hopt & Htrig & Hcall & Hstats).
  split.
  { pose proof (main_runs _ _ _ _ Hi (runs_ret tt)) as H.
    now rewrite app_nil_r in H. }
  unfold spec_shell_state. rewrite !existsb_app, Hopt, Htrig, Hcall, Herr, Hstats.
  repeat split; reflexivity.
Qed.

(** C8. On every run the value read from the slider lies in [1,10], and
    every call of the extractive summarizer, and of the ranking strategy
    inside it, gets exactly that value as its sentence count: a count
    between 1 and 10. *)
Theorem sentence_count_in_bound (data : gset string) :
  1 <= slider_value st "Summary length:" 1 10 5 <= 10 /\
  forallb (count_is (slider_value st "Summary length:" 1 10 5))
          (run_trace (main st lib) data) = true /\
  forallb count_in_bound (run_trace (main st lib) data) = true.
Proof.
  pose proof slider_length_bound as Hb.
  pose proof (main_events data) as H. rewrite forallb_forall in H.
  split; [exact Hb |]. split; apply forallb_forall; intros e He;
    specialize (H e He); apply andb_prop in H; destruct H as [_ H]; [exact H |].
  destruct e; cbn in *; trivial; apply Z.eqb_eq in H; subst; lia.
Qed.

(** C10. The guard [if text:] lets through a text that tokenizes to no
    word at all.  On the Text path with such a text and the button pressed,
    once the chosen summarizer has returned, the summary is written and the
    division of line 110 then raises [ZeroDivisionError]: the run ends in
    the error branch of the handler although summarization succeeded. *)
Theorem zero_words_divide_by_zero (text summary : string) evs ws :
  String.eqb (radio_value st "Input method:" ["Text"; "URL"]) "Text" = true ->
  text_area_value st "Paste your article text here:" = text ->
  truthy text = true ->
  button_value st "Generate Summary" = true ->
  runs (main_summarize lib text (selectbox_value st "Summary type:" summary_types)
                       (slider_value st "Summary length:" 1 10 5))
       (inr summary) evs ->
  word_tokenize lib text = inr [] ->
  word_tokenize lib summary = inr ws ->
  runs (main st lib) (inr tt)
       (header_events ++
        [StRadio "Input method:" ["Text"; "URL"];
         StTextArea "Paste your article text here:" text] ++
        options_events ++
        [StSpinner "Generating summary..."] ++ evs ++
        [StWrite summary; StError ZeroDivisionError]).
Proof.
  intros Hm <- Ht Hb Hsum Ho Hs.
  eapply main_runs; [now apply main_input_text |].
  rewrite Ht. apply main_options_runs. rewrite Hb.
  pose proof (main_generate_stats_raise _ _ _ _ _ _ _ Hsum (main_stats_zero _ _ _ Ho Hs)) as H.
  exact H.
Qed.

(** C2, as amended.  With a strategy tag outside the four recognized ones
    the extractive summarizer fails and runs no ranking strategy: it raises
    the error of the parser construction if that fails, and otherwise
    Python's [UnboundLocalError] for the local [summarizer], which no
    branch assigned.  The error is never one of a class named
    [SummarizationError] unless the parser library raises such a class. *)
Theorem sumy_summarizer_unknown_tag (text tag : string) (n : Z) :
  ~ In tag recognized_tags ->
  exists e,
    runs (sumy_summarizer lib text tag n) (inl e) [CallSumy text tag n] /\
    (forall p, PlaintextParser_from_string lib text "english" = inr p ->
               e = UnboundLocalError "summarizer") /\
    (forall e', PlaintextParser_from_string lib text "english" = inl e' -> e = e').
Proof.
  intros Htag. apply select_summarizer_none in Htag.
  eexists. split; [apply sumy_summarizer_unbound, Htag |].
  split; intros x Hx; now rewrite Hx.
Qed.

(** C1, at the option the claim fails on.  Of the four extractive options
    the tags derived on line 98 are [lsa], [lexrank], [luhn] and [textrank];
    the one derived from ["Extractive (LexRank)"] is none of the recognized
    tags (line 25 compares with ['lex']), and generation with that option
    ends in the error branch, whatever the text and the count. *)
Theorem lexrank_option_fails (text : string) (n : Z) :
  map (fun o => fst (method_of o (init ∅))) extractive_options
    = [inr "lsa"; inr "lexrank"; inr "luhn"; inr "textrank"] /\
  runs (method_of "Extractive (LexRank)") (inr "lexrank") [] /\
  ~ In "lexrank" recognized_tags /\
  exists e,
    runs (main_generate lib text "Extractive (LexRank)" n) (inr tt)
         [StSpinner "Generating summary..."; CallSumy text "lexrank" n; StError e] /\
    spec_shell_state
      [StSpinner "Generating summary..."; CallSumy text "lexrank" n; StError e]
    = ErrorDisplayed.
Proof.
  split; [reflexivity |].
  split; [apply method_of_lexrank |].
  assert (Hno : ~ In "lexrank" recognized_tags)
    by (cbn; intuition discriminate).
  split; [exact Hno |].
  apply select_summarizer_none in Hno.
  eexists. split; [| reflexivity].
  unfold main_generate, main_summarize.
  change (PyStr.contains "Extractive" "Extractive (LexRank)") with true.
  cbv iota.
  eapply runs_bind; [apply runs_emit | | reflexivity].
  eapply runs_except;
    [ apply runs_bind_raise;
      eapply runs_bind;
        [ apply method_of_lexrank
        | apply runs_bind_raise, sumy_summarizer_unbound, Hno
        | reflexivity ]
    | apply runs_emit
    | reflexivity ].
Qed.

End Properties.

(** ** The setup of lines 14-16 *)

Section Setup.

Variable nltk : Nltk.
Variable lib : Library.

(** One execution of the file from any state: the two downloads, then
    [main], which leaves the installed data alone. *)
Lemma script_runs (st : Streamlit) evs :
  runs (main st lib) (inr tt) evs ->
  forall s,
    script nltk st lib s
    = (inr tt,
       mkState (trace s ++ [NltkDownload "punkt"; NltkDownload "stopwords"] ++ evs)
               (download_data nltk "stopwords"
                  (download_data nltk "punkt" (nltk_data s)))).
Proof.
  intros H s. unfold script, module_setup, nltk_download, bind, ret.
  cbn [trace nltk_data]. rewrite (H _). cbn [trace nltk_data].
  now rewrite <- !app_assoc.
Qed.

Lemma main_no_download (st : Streamlit) (data : gset string) :
  existsb is_download (run_trace (main st lib) data) = false.
Proof.
  pose proof (main_events st lib data) as H. rewrite forallb_forall in H.
  apply not_true_is_false. intros Hex. apply existsb_exists in Hex.
  destruct Hex as (e & He & Hd). specialize (H e He). now rewrite Hd in H.
Qed.

Lemma session_downloads (forms : list Streamlit) (s : state) :
  length (List.filter is_download (trace (snd (streamlit_session nltk lib forms s))))
  = (length (List.filter is_download (trace s)) + 2 * length forms)%nat.
Proof.
  revert s. induction forms as [| st rest IH]; intros s.
  - cbn. lia.
  - destruct (main_total st lib) as (evs & H).
    pose proof (main_no_download st ∅) as Hno.
    destruct (runs_trace _ _ _ ∅ H) as [Htr _]. rewrite Htr in Hno.
    cbn [streamlit_session]. rewrite IH, (script_runs st evs H s).
    cbn [snd trace]. rewrite !List.filter_app, !List.length_app.
    rewrite (filter_none _ _ Hno). cbn. lia.
Qed.

Lemma session_data (forms : list Streamlit) (data : gset string) :
  (forall name d, name ∈ d -> download_data nltk name d = d) ->
  "punkt" ∈ data -> "stopwords" ∈ data ->
  forall s, nltk_data s = data ->
    nltk_data (snd (streamlit_session nltk lib forms s)) = data.
Proof.
  intros Hkeep Hp Hs. induction forms as [| st rest IH]; intros s Hd.
  - exact Hd.
  - destruct (main_total st lib) as (evs & H).
    cbn [streamlit_session]. apply IH. rewrite (script_runs st evs H s).
    cbn [snd nltk_data]. rewrite Hd, (Hkeep "punkt") by exact Hp.
    now apply Hkeep.
Qed.

(** C9, as amended.  Every execution of the file begins with exactly two
    setup operations, [nltk.download('punkt')] then
    [nltk.download('stopwords')], before anything of [main]; [main] and the
    functions it calls perform none.  The setup is not confined to startup:
    Streamlit executes the file again on every interaction, so a session of
    [k] executions performs [2 * k] of them.  The script adds no guard of its
    own and drops the flag the call returns: the installed data after an
    execution is what the downloader leaves, and a session leaves the data as
    it was exactly as far as the downloader does so for a package that is
    present. *)
Theorem setup_on_every_execution (forms : list Streamlit) (data : gset string) :
  (forall st : Streamlit,
     run_trace (script nltk st lib) data
       = [NltkDownload "punkt"; NltkDownload "stopwords"]
         ++ run_trace (main st lib) data /\
     existsb is_download (run_trace (main st lib) data) = false /\
     length (List.filter is_download (run_trace (script nltk st lib) data)) = 2%nat /\
     nltk_data (snd (script nltk st lib (init data)))
       = download_data nltk "stopwords" (download_data nltk "punkt" data)) /\
  length (List.filter is_download (run_trace (streamlit_session nltk lib forms) data))
    = (2 * length forms)%nat /\
  ((forall name d, name ∈ d -> download_data nltk name d = d) ->
   "punkt" ∈ data -> "stopwords" ∈ data ->
   nltk_data (snd (streamlit_session nltk lib forms (init data))) = data).
Proof.
  split; [| split].
  - intros st. destruct (main_total st lib) as (evs & H).
    pose proof (main_no_download st data) as Hno.
    destruct (runs_trace _ _ _ data H) as [Htr _].
    assert (Hs : run_trace (script nltk st lib) data
                 = [NltkDownload "punkt"; NltkDownload "stopwords"]
                   ++ run_trace (main st lib) data).
    { unfold run_trace at 1. rewrite (script_runs st evs H). now rewrite Htr. }
    split; [exact Hs |]. split; [exact Hno |]. split.
    + rewrite Hs. cbn [app List.filter is_download].
      now rewrite (filter_none _ _ Hno).
    + now rewrite (script_runs st evs H).
  - unfold run_trace. now rewrite session_downloads.
  - intros Hkeep Hp Hs. now apply session_data.
Qed.

End Setup.

(** ** The script on concrete inputs *)

Example extractive_run :
  run_trace (main (Demo.session "Text" "One two. Three four. Five." "" "Extractive (LSA)" 2 true)
                  Demo.library) ∅
  = header_events ++
    [StRadio "Input method:" ["Text"; "URL"];
     StTextArea "Paste your article text here:" "One two. Three four. Five."] ++
    options_events ++
    [StSpinner "Generating summary..."; CallSumy "One two. Three four. Five." "lsa" 2;
     CallRank LsaSummarizer 2; StSubheader "📋 Extractive Summary";
     StWrite "One two. Three four."; StSuccess 5 4 (20 # 1)].
Proof. reflexivity. Qed.

Example lexrank_run :
  run_trace (main (Demo.session "Text" "One two. Three four. Five." "" "Extractive (LexRank)" 2 true)
                  Demo.library) ∅
  = header_events ++
    [StRadio "Input method:" ["Text"; "URL"];
     StTextArea "Paste your article text here:" "One two. Three four. Five."] ++
    options_events ++
    [StSpinner "Generating summary..."; CallSumy "One two. Three four. Five." "lexrank" 2;
     StError (UnboundLocalError "summarizer")].
Proof. reflexivity. Qed.

Example whitespace_run :
  run_trace (main (Demo.session "Text" " " "" "Extractive (LSA)" 5 true) Demo.library) ∅
  = header_events ++
    [StRadio "Input method:" ["Text"; "URL"];
     StTextArea "Paste your article text here:" " "] ++
    options_events ++
    [StSpinner "Generating summary..."; CallSumy " " "lsa" 5;
     CallRank LsaSummarizer 5; StSubheader "📋 Extractive Summary";
     StWrite ""; StError ZeroDivisionError].
Proof. reflexivity. Qed.

Lemma demo_summarize_lsa :
  runs (main_summarize Demo.library "One two. Three four. Five." "Extractive (LSA)" 2)
       (inr "One two. Three four.")
       [CallSumy "One two. Three four. Five." "lsa" 2; CallRank LsaSummarizer 2;
        StSubheader "📋 Extractive Summary"].
Proof. eval_runs. Defined.

Lemma demo_summarize_whitespace :
  runs (main_summarize Demo.library " " "Extractive (LSA)" 5) (inr "")
       [CallSumy " " "lsa" 5; CallRank LsaSummarizer 5;
        StSubheader "📋 Extractive Summary"].
Proof. eval_runs. Defined.

(** C2, the claim as stated fails: with the tag ["lexrank"], which the shell
    itself derives, the error raised is Python's [UnboundLocalError], not an
    error of a class named [SummarizationError]. *)
Lemma unknown_tag_not_summarization_error :
  ~ In "lexrank" recognized_tags /\
  runs (sumy_summarizer Demo.library "One two. Three four. Five." "lexrank" 2)
       (inl (UnboundLocalError "summarizer"))
       [CallSumy "One two. Three four. Five." "lexrank" 2] /\
  exn_class (UnboundLocalError "summarizer") <> "SummarizationError".
Proof.
  split; [cbn; intuition discriminate |].
  split; [eval_runs | discriminate].
Qed.

Lemma sumy_summarizer_unknown_tag_witness :
  ~ In "lexrank" recognized_tags /\
  exists e,
    runs (sumy_summarizer Demo.library "One two. Three four. Five." "lexrank" 2)
         (inl e) [CallSumy "One two. Three four. Five." "lexrank" 2] /\
    (forall p, PlaintextParser_from_string Demo.library "One two. Three four. Five." "english"
               = inr p -> e = UnboundLocalError "summarizer") /\
    (forall e', PlaintextParser_from_string Demo.library "One two. Three four. Five." "english"
                = inl e' -> e = e').
Proof.
  assert (H : ~ In "lexrank" recognized_tags) by (cbn; intuition discriminate).
  split; [exact H |].
  exact (sumy_summarizer_unknown_tag Demo.library "One two. Three four. Five." "lexrank" 2 H).
Defined.

(** C3, the claim as stated fails: a text of one space passes the guard,
    the LSA summarizer returns the empty summary, which is written, and the
    statistics then divide by zero: a summary and an error, no statistics. *)
Lemma whitespace_text_partial_result :
  runs (main_generate Demo.library " " "Extractive (LSA)" 5) (inr tt)
       [StSpinner "Generating summary..."; CallSumy " " "lsa" 5;
        CallRank LsaSummarizer 5; StSubheader "📋 Extractive Summary";
        StWrite ""; StError ZeroDivisionError] /\
  all_or_error
       [StSpinner "Generating summary..."; CallSumy " " "lsa" 5;
        CallRank LsaSummarizer 5; StSubheader "📋 Extractive Summary";
        StWrite ""; StError ZeroDivisionError] = false.
Proof. split; [eval_runs | reflexivity]. Qed.

Lemma generate_summary_or_error_witness :
  runs (main_summarize Demo.library "One two. Three four. Five." "Extractive (LSA)" 2)
       (inr "One two. Three four.")
       [CallSumy "One two. Three four. Five." "lsa" 2; CallRank LsaSummarizer 2;
        StSubheader "📋 Extractive Summary"] /\
  runs (main_generate Demo.library "One two. Three four. Five." "Extractive (LSA)" 2)
       (inr tt)
       [StSpinner "Generating summary..."; CallSumy "One two. Three four. Five." "lsa" 2;
        CallRank LsaSummarizer 2; StSubheader "📋 Extractive Summary";
        StWrite "One two. Three four."; StSuccess 5 4 (reduction 5 4)].
Proof.
  split; [exact demo_summarize_lsa |].
  destruct (generate_summary_or_error Demo.library _ _ _ _ _ demo_summarize_lsa)
    as [_ H].
  destruct (H "One two. Three four." ["One"; "two."; "Three"; "four."; "Five."]
              ["One"; "two."; "Three"; "four."] eq_refl eq_refl eq_refl)
    as (calls & tr & _ & Hevs & -> & Hr & _); [discriminate |].
  apply (app_inj_tail [CallSumy "One two. Three four. Five." "lsa" 2;
                       CallRank LsaSummarizer 2] calls) in Hevs.
  destruct Hevs as [<- _]. exact Hr.
Defined.

Lemma demo_summarize_seven :
  runs (main_summarize Demo.library "One two three. Four five six seven."
                       "Extractive (LSA)" 1)
       (inr "One two three.")
       [CallSumy "One two three. Four five six seven." "lsa" 1; CallRank LsaSummarizer 1;
        StSubheader "📋 Extractive Summary"].
Proof. eval_runs. Defined.

(** C4, the claim as stated fails: with a text of seven words and a summary
    of three, the percentage computed on line 110 is the double
    57.142857142857139..., not 400/7, and the page shows 57.1. *)
Lemma reduction_is_rounded :
  runs (main_generate Demo.library "One two three. Four five six seven."
                      "Extractive (LSA)" 1)
       (inr tt)
       [StSpinner "Generating summary...";
        CallSumy "One two three. Four five six seven." "lsa" 1;
        CallRank LsaSummarizer 1; StSubheader "📋 Extractive Summary";
        StWrite "One two three.";
        StSuccess 7 3 (2010535547933257 # 35184372088832)] /\
  exact_reduction 7 3 = (400 # 7)%Q /\
  Qeq_bool (2010535547933257 # 35184372088832) (exact_reduction 7 3) = false /\
  PyFloat.format_1f (2010535547933257 # 35184372088832) = (571 # 10)%Q /\
  Qeq_bool (571 # 10) (exact_reduction 7 3) = false.
Proof. split; [eval_runs | repeat split; reflexivity]. Qed.

Lemma reduction_up_to_rounding_witness :
  runs (main_summarize Demo.library "One two three. Four five six seven."
                       "Extractive (LSA)" 1)
       (inr "One two three.")
       [CallSumy "One two three. Four five six seven." "lsa" 1; CallRank LsaSummarizer 1;
        StSubheader "📋 Extractive Summary"] /\
  word_tokenize Demo.library "One two three. Four five six seven."
    = inr ["One"; "two"; "three."; "Four"; "five"; "six"; "seven."] /\
  word_tokenize Demo.library "One two three." = inr ["One"; "two"; "three."] /\
  0 < Z.of_nat (length ["One"; "two"; "three."; "Four"; "five"; "six"; "seven."]) /\
  runs (main_generate Demo.library "One two three. Four five six seven."
                      "Extractive (LSA)" 1)
       (inr tt)
       [StSpinner "Generating summary...";
        CallSumy "One two three. Four five six seven." "lsa" 1;
        CallRank LsaSummarizer 1; StSubheader "📋 Extractive Summary";
        StWrite "One two three."; StSuccess 7 3 (reduction 7 3)] /\
  (Qabs (reduction 7 3 - exact_reduction 7 3)
   <= Qabs (exact_reduction 7 3) * (1 # 2251799813685248))%Q.
Proof.
  split; [exact demo_summarize_seven |].
  split; [reflexivity |]. split; [reflexivity |]. split; [reflexivity |].
  destruct (reduction_up_to_rounding Demo.library _ _ _ _ _
              ["One"; "two"; "three."; "Four"; "five"; "six"; "seven."]
              ["One"; "two"; "three."]
              demo_summarize_seven eq_refl eq_refl eq_refl)
    as (ratio & Hr & -> & He & _).
  split; [exact Hr | exact He].
Defined.

Lemma demo_fetch_raises :
  runs (get_article_text Demo.library "not a url")
       (inl (LibraryError "ArticleException" "Article `download()` failed"))
       [CallGetArticleText "not a url"].
Proof. eval_runs. Defined.

Lemma fetch_failure_shows_error_witness :
  String.eqb (radio_value (Demo.session "URL" "" "not a url" "Extractive (LSA)" 5 false)
                          "Input method:" ["Text"; "URL"]) "Text" = false /\
  text_input_value (Demo.session "URL" "" "not a url" "Extractive (LSA)" 5 false)
                   "Enter article URL:" = "not a url" /\
  truthy "not a url" = true /\
  runs (get_article_text Demo.library "not a url")
       (inl (LibraryError "ArticleException" "Article `download()` failed"))
       [CallGetArticleText "not a url"] /\
  exists tr,
    tr = header_events ++
         [StRadio "Input method:" ["Text"; "URL"]; StTextInput "Enter article URL:";
          StSpinner "Fetching article..."; CallGetArticleText "not a url";
          StError (LibraryError "ArticleException" "Article `download()` failed")] /\
    runs (main (Demo.session "URL" "" "not a url" "Extractive (LSA)" 5 false) Demo.library)
         (inr tt) tr /\
    existsb is_summarizer_call tr = false /\
    existsb is_option tr = false /\
    spec_shell_state tr = ErrorDisplayed.
Proof.
  split; [reflexivity |]. split; [reflexivity |]. split; [reflexivity |].
  split; [exact demo_fetch_raises |].
  exact (fetch_failure_shows_error
           (Demo.session "URL" "" "not a url" "Extractive (LSA)" 5 false) Demo.library
           "not a url" _ _ eq_refl eq_refl eq_refl demo_fetch_raises).
Defined.

Lemma demo_input_empty :
  runs (main_input (Demo.session "Text" "" "" "Extractive (LSA)" 5 false) Demo.library)
       (inr "")
       [StRadio "Input method:" ["Text"; "URL"];
        StTextArea "Paste your article text here:" ""].
Proof. eval_runs. Defined.

Lemma empty_text_not_actionable_witness :
  runs (main_input (Demo.session "Text" "" "" "Extractive (LSA)" 5 false) Demo.library)
       (inr "")
       [StRadio "Input method:" ["Text"; "URL"];
        StTextArea "Paste your article text here:" ""] /\
  existsb is_error [StRadio "Input method:" ["Text"; "URL"];
                    StTextArea "Paste your article text here:" ""] = false /\
  runs (main (Demo.session "Text" "" "" "Extractive (LSA)" 5 false) Demo.library) (inr tt)
       (header_events ++ [StRadio "Input method:" ["Text"; "URL"];
                          StTextArea "Paste your article text here:" ""]) /\
  spec_shell_state
       (header_events ++ [StRadio "Input method:" ["Text"; "URL"];
                          StTextArea "Paste your article text here:" ""]) = AwaitingInput.
Proof.
  split; [exact demo_input_empty |]. split; [reflexivity |].
  destruct (empty_text_not_actionable
              (Demo.session "Text" "" "" "Extractive (LSA)" 5 false) Demo.library
              _ demo_input_empty eq_refl) as (Hr & _ & _ & _ & Hs).
  split; [exact Hr | exact Hs].
Defined.

Lemma zero_words_divide_by_zero_witness :
  String.eqb (radio_value (Demo.session "Text" " " "" "Extractive (LSA)" 5 true)
                          "Input method:" ["Text"; "URL"]) "Text" = true /\
  text_area_value (Demo.session "Text" " " "" "Extractive (LSA)" 5 true)
                  "Paste your article text here:" = " " /\
  truthy " " = true /\
  button_value (Demo.session "Text" " " "" "Extractive (LSA)" 5 true) "Generate Summary"
    = true /\
  runs (main_summarize Demo.library " " "Extractive (LSA)" 5) (inr "")
       [CallSumy " " "lsa" 5; CallRank LsaSummarizer 5;
        StSubheader "📋 Extractive Summary"] /\
  word_tokenize Demo.library " " = inr [] /\
  word_tokenize Demo.library "" = inr [] /\
  runs (main (Demo.session "Text" " " "" "Extractive (LSA)" 5 true) Demo.library) (inr tt)
       (header_events ++
        [StRadio "Input method:" ["Text"; "URL"];
         StTextArea "Paste your article text here:" " "] ++
        options_events ++
        [StSpinner "Generating summary..."; CallSumy " " "lsa" 5;
         CallRank LsaSummarizer 5; StSubheader "📋 Extractive Summary";
         StWrite ""; StError ZeroDivisionError]).
Proof.
  split; [reflexivity |]. split; [reflexivity |]. split; [reflexivity |].
  split; [reflexivity |]. split; [exact demo_summarize_whitespace |].
  split; [reflexivity |]. split; [reflexivity |].
  exact (zero_words_divide_by_zero
           (Demo.session "Text" " " "" "Extractive (LSA)" 5 true) Demo.library
           " " "" _ [] eq_refl eq_refl eq_refl eq_refl demo_summarize_whitespace
           eq_refl eq_refl).
Defined.

(** C9 as stated fails on a session of two executions: the page is opened,
    then the user presses Generate Summary.  The request executes the file
    again: its two downloads come after everything the first execution
    rendered, and the session has made four, not two. *)
Lemma setup_repeated_on_request :
  run_trace (streamlit_session Demo.nltk Demo.library
               [Demo.session "Text" "" "" "Extractive (LSA)" 5 false;
                Demo.session "Text" "One two. Three four. Five." "" "Extractive (LSA)" 2 true])
            ∅
  = [NltkDownload "punkt"; NltkDownload "stopwords"] ++
    header_events ++
    [StRadio "Input method:" ["Text"; "URL"];
     StTextArea "Paste your article text here:" ""] ++
    [NltkDownload "punkt"; NltkDownload "stopwords"] ++
    header_events ++
    [StRadio "Input method:" ["Text"; "URL"];
     StTextArea "Paste your article text here:" "One two. Three four. Five."] ++
    options_events ++
    [StSpinner "Generating summary..."; CallSumy "One two. Three four. Five." "lsa" 2;
     CallRank LsaSummarizer 2; StSubheader "📋 Extractive Summary";
     StWrite "One two. Three four."; StSuccess 5 4 (20 # 1)] /\
  length (List.filter is_download
            (run_trace (streamlit_session Demo.nltk Demo.library
                          [Demo.session "Text" "" "" "Extractive (LSA)" 5 false;
                           Demo.session "Text" "One two. Three four. Five." ""
                                        "Extractive (LSA)" 2 true]) ∅)) = 4%nat.
Proof. split; reflexivity. Qed.

Lemma setup_on_every_execution_witness :
  nltk_data
    (snd (streamlit_session Demo.nltk Demo.library
            [Demo.session "Text" "" "" "Extractive (LSA)" 5 false;
             Demo.session "Text" "One two. Three four. Five." "" "Extractive (LSA)" 2 true]
            (init ({["punkt"]} ∪ {["stopwords"]}))))
  = {["punkt"]} ∪ {["stopwords"]}.
Proof.
  apply (setup_on_every_execution Demo.nltk Demo.library
           [Demo.session "Text" "" "" "Extractive (LSA)" 5 false;
            Demo.session "Text" "One two. Three four. Five." "" "Extractive (LSA)" 2 true]
           ({["punkt"]} ∪ {["stopwords"]})).
  - intros name d H. now apply install_present.
  - apply elem_of_union_l. now apply elem_of_singleton.
  - apply elem_of_union_r. now apply elem_of_singleton.
Defined.

(** ** Line 98 on arbitrary labels *)

Lemma split_no_sep (c : ascii) (s : string) :
  has_char c s = false -> PyStr.split c s = [s].
Proof.
  unfold has_char. induction s as [| a s IH]; [reflexivity |].
  cbn. intros H. apply orb_false_elim in H. destruct H as [Ha Hs].
  rewrite Ascii.eqb_sym, Ha, (IH Hs). reflexivity.
Qed.

Lemma split_at_sep (c : ascii) (pre rest : string) :
  has_char c pre = false ->
  PyStr.split c (pre +:+ String c rest) = pre :: PyStr.split c rest.
Proof.
  unfold has_char. induction pre as [| a pre IH].
  - intros _. change ("" +:+ String c rest) with (String c rest).
    cbn. now rewrite Ascii.eqb_refl.
  - change (String a pre +:+ String c rest) with (String a (pre +:+ String c rest)).
    cbn. intros H. apply orb_false_elim in H. destruct H as [Ha Hs].
    rewrite Ascii.eqb_sym, Ha, (IH Hs). reflexivity.
Qed.

Lemma split_nonempty (c : ascii) (s : string) :
  exists p ps, PyStr.split c s = p :: ps.
Proof.
  induction s as [| a s (p & ps & IH)]; [cbn; eauto |].
  cbn. destruct (Ascii.eqb a c); [eauto |]. rewrite IH. eauto.
Qed.

(** A piece of [s.split(c')] contains no character that [s] does not
    contain, and never the separator. *)
Lemma split_pieces_without (c c' : ascii) (s : string) :
  has_char c s = false ->
  Forall (fun p => has_char c p = false) (PyStr.split c' s).
Proof.
  unfold has_char. induction s as [| a s IH]; [now repeat constructor |].
  cbn. intros H. apply orb_false_elim in H. destruct H as [Ha Hs].
  specialize (IH Hs).
  destruct (Ascii.eqb a c'); [now constructor |].
  destruct (PyStr.split c' s) as [| p ps]; [repeat constructor; cbn; now rewrite Ha |].
  inversion IH; subst. constructor; [cbn; now rewrite Ha | assumption].
Qed.

Lemma split_pieces_no_sep (c : ascii) (s : string) :
  Forall (fun p => has_char c p = false) (PyStr.split c s).
Proof.
  unfold has_char. induction s as [| a s IH]; [now repeat constructor |].
  cbn. destruct (Ascii.eqb a c) eqn:E; [now constructor |].
  destruct (PyStr.split c s) as [| p ps];
    [repeat constructor; cbn; now rewrite Ascii.eqb_sym, E |].
  inversion IH; subst.
  constructor; [cbn; now rewrite Ascii.eqb_sym, E | assumption].
Qed.

Lemma has_char_cut (c : ascii) (s : string) :
  has_char c s = true ->
  exists pre rest, s = pre +:+ String c rest /\ has_char c pre = false.
Proof.
  unfold has_char. induction s as [| a s IH]; [discriminate |].
  cbn. destruct (Ascii.eqb c a) eqn:E.
  - intros _. apply Ascii.eqb_eq in E. subst. now exists "", s.
  - cbn. intros H. destruct (IH H) as (pre & rest & -> & Hp).
    exists (String a pre), rest. split; [reflexivity |]. cbn. now rewrite E.
Qed.

Lemma lower_ascii_idem (x : ascii) :
  PyStr.lower_ascii (PyStr.lower_ascii x) = PyStr.lower_ascii x.
Proof. destruct x as [[] [] [] [] [] [] [] []]; reflexivity. Qed.

Lemma lower_idem (s : string) : PyStr.lower (PyStr.lower s) = PyStr.lower s.
Proof.
  induction s as [| a s IH]; [reflexivity |]. cbn. now rewrite lower_ascii_idem, IH.
Qed.

Lemma lower_ascii_paren (x : ascii) :
  Ascii.eqb "(" (PyStr.lower_ascii x) = Ascii.eqb "(" x /\
  Ascii.eqb ")" (PyStr.lower_ascii x) = Ascii.eqb ")" x.
Proof. destruct x as [[] [] [] [] [] [] [] []]; split; reflexivity. Qed.

Lemma has_paren_lower (s : string) :
  has_char "(" (PyStr.lower s) = has_char "(" s /\
  has_char ")" (PyStr.lower s) = has_char ")" s.
Proof.
  unfold has_char. induction s as [| a s [IH1 IH2]]; [split; reflexivity |].
  cbn [PyStr.lower list_ascii_of_string existsb].
  destruct (lower_ascii_paren a) as [E1 E2]. now rewrite E1, E2, IH1, IH2.
Qed.

(** What line 98 computes, without the monad. *)
Lemma method_of_unfold (s : string) :
  runs (method_of s)
       (match nth_error (PyStr.split "(" s) 1 with
        | Some after =>
            match nth_error (PyStr.split ")" after) 0 with
            | Some inside => inr (PyStr.lower inside)
            | None => inl IndexError
            end
        | None => inl IndexError
        end) [].
Proof.
  intros [tr d]. unfold method_of, index, bind, ret, raise. cbn [trace nltk_data].
  rewrite app_nil_r.
  destruct (nth_error (PyStr.split "(" s) 1) as [after |]; [| reflexivity].
  now destruct (nth_error (PyStr.split ")" after) 0).
Qed.

(** X1.  Line 98 raises [IndexError] exactly when the label has no opening
    parenthesis; otherwise it yields a tag, which has no ASCII upper-case
    letter and no parenthesis. *)
Theorem method_of_cases (s : string) :
  (has_char "(" s = false /\ runs (method_of s) (inl IndexError) []) \/
  (has_char "(" s = true /\
   exists tag,
     runs (method_of s) (inr tag) [] /\
     PyStr.lower tag = tag /\
     has_char "(" tag = false /\ has_char ")" tag = false).
Proof.
  pose proof (method_of_unfold s) as H.
  destruct (has_char "(" s) eqn:E.
  - right. split; [reflexivity |].
    destruct (has_char_cut _ _ E) as (pre & rest & -> & Hpre).
    rewrite (split_at_sep _ _ _ Hpre) in H.
    pose proof (split_pieces_no_sep "(" rest) as Hno.
    destruct (split_nonempty "(" rest) as (after & ps & Hs). rewrite Hs in H, Hno.
    cbn [nth_error] in H.
    inversion Hno as [| ? ? Hafter _]; subst.
    pose proof (split_pieces_no_sep ")" after) as Hno2.
    pose proof (split_pieces_without "(" ")" after Hafter) as Hno1.
    destruct (split_nonempty ")" after) as (inside & qs & Hs'). rewrite Hs' in H, Hno1, Hno2.
    inversion Hno1; inversion Hno2; subst.
    exists (PyStr.lower inside). cbn in H. split; [exact H |].
    split; [apply lower_idem |].
    destruct (has_paren_lower inside) as [-> ->]. now split.
  - left. split; [reflexivity |]. now rewrite (split_no_sep _ _ E) in H.
Qed.

Lemma split_first_then (inside post : string) :
  has_char "(" inside = false ->
  has_char ")" inside = false ->
  exists after ps qs,
    PyStr.split "(" (inside +:+ String ")" post) = after :: ps /\
    PyStr.split ")" after = inside :: qs.
Proof.
  unfold has_char. induction inside as [| a inside IH]; intros H1 H2.
  - change ("" +:+ String ")" post) with (String ")" post).
    destruct (split_nonempty "(" post) as (p & ps & Hp).
    exists (String ")" p), ps, (PyStr.split ")" p). cbn. now rewrite Hp.
  - change (String a inside +:+ String ")" post)
      with (String a (inside +:+ String ")" post)).
    cbn [list_ascii_of_string existsb] in H1, H2. apply orb_false_elim in H1, H2.
    destruct H1 as [Ha1 H1], H2 as [Ha2 H2].
    destruct (IH H1 H2) as (after & ps & qs & Hs & Hq).
    exists (String a after), ps, qs.
    cbn [PyStr.split]. rewrite Ascii.eqb_sym, Ha1, Hs.
    split; [reflexivity |]. rewrite Ascii.eqb_sym, Ha2, Hq. reflexivity.
Qed.

(** X2.  For a label whose text between the first opening parenthesis and
    the first closing one after it is ASCII, the tag is that text lowercased,
    whatever precedes and follows; a missing closing parenthesis is
    accepted. *)
Theorem method_of_between_parentheses (pre inside post : string) :
  PyStr.isascii inside = true ->
  has_char "(" pre = false ->
  has_char "(" inside = false ->
  has_char ")" inside = false ->
  runs (method_of (pre +:+ "(" +:+ inside +:+ ")" +:+ post)) (inr (PyStr.lower inside)) [] /\
  runs (method_of (pre +:+ "(" +:+ inside)) (inr (PyStr.lower inside)) [].
Proof.
  intros _ Hpre Hin1 Hin2. split.
  - pose proof (method_of_unfold (pre +:+ "(" +:+ inside +:+ ")" +:+ post)) as H.
    change (pre +:+ "(" +:+ inside +:+ ")" +:+ post)
      with (pre +:+ String "(" (inside +:+ String ")" post)) in H |- *.
    rewrite (split_at_sep _ _ _ Hpre) in H.
    destruct (split_first_then inside post Hin1 Hin2) as (after & ps & qs & Hs & Hq).
    rewrite Hs in H. cbn [nth_error] in H. now rewrite Hq in H.
  - pose proof (method_of_unfold (pre +:+ "(" +:+ inside)) as H.
    change (pre +:+ "(" +:+ inside) with (pre +:+ String "(" inside) in H |- *.
    rewrite (split_at_sep _ _ _ Hpre), (split_no_sep _ _ Hin1) in H.
    cbn [nth_error] in H. now rewrite (split_no_sep _ _ Hin2) in H.
Qed.

Lemma method_of_between_parentheses_witness :
  PyStr.isascii "TextRank" = true /\
  has_char "(" "Extractive " = false /\
  has_char "(" "TextRank" = false /\
  has_char ")" "TextRank" = false /\
  runs (method_of "Extractive (TextRank) v2") (inr "textrank") [] /\
  runs (method_of "Extractive (TextRank") (inr "textrank") [].
Proof.
  split; [reflexivity |]. split; [reflexivity |]. split; [reflexivity |].
  split; [reflexivity |].
  exact (method_of_between_parentheses "Extractive " "TextRank" " v2"
           eq_refl eq_refl eq_refl eq_refl).
Defined.

(** ** Every run of [main] *)

Lemma no_call_facts (t : string) (v : Z) (l : list event) :
  existsb is_summarizer_call l = false ->
  forallb (call_text_is t) l = true /\ forallb (abstractive_bounds_are v) l = true.
Proof.
  induction l as [| e l IH]; [now split |]. cbn [existsb forallb].
  intros H. apply orb_false_elim in H. destruct H as [He Hl].
  destruct (IH Hl) as [-> ->]. now destruct e.
Qed.

Section Runs.

Variable st : Streamlit.
Variable lib : Library.

(** *** What each block of [main] can record *)

Lemma main_input_shape :
  exists evs,
    runs (main_input st lib) (inr (acquired_text st lib)) evs /\
    existsb is_fetch evs
      = negb (String.eqb (radio_value st "Input method:" ["Text"; "URL"]) "Text")
        && truthy (text_input_value st "Enter article URL:") /\
    existsb is_trigger evs = false /\
    existsb is_summarizer_call evs = false /\
    existsb is_abstractive_call evs = false /\
    existsb is_sumy_call evs = false /\
    existsb is_stats evs = false /\
    existsb is_summary evs = false /\
    (length (List.filter is_error evs) <= 1)%nat /\
    (if truthy (acquired_text st lib) then List.filter is_error evs else []) = [] /\
    (if truthy (acquired_text st lib) then existsb is_error evs else false) = false.
Proof.
  exists (run_trace (main_input st lib) ∅). split.
  - unfold acquired_text. intros s. run_script; norm_trace; reflexivity.
  - unfold acquired_text. unfold_script. cbn [app].
    repeat (split_match; cbv beta iota; cbn [app]);
      try (match goal with H : truthy "" = true |- _ => discriminate H end);
      cbn; repeat split; try reflexivity; try lia;
      repeat match goal with H : truthy _ = _ |- _ => rewrite H end; reflexivity.
Qed.

Lemma main_summarize_shape (text ty : string) (n : Z) r evs :
  runs (main_summarize lib text ty n) r evs ->
  existsb is_fetch evs = false /\
  existsb is_trigger evs = false /\
  List.filter is_error evs = [] /\
  forallb (abstractive_bounds_are n) evs = true /\
  forallb (call_text_is text) evs = true /\
  (if PyStr.contains "Extractive" ty
   then existsb is_abstractive_call evs
   else existsb is_sumy_call evs) = false /\
  match r with inl _ => true | inr _ => existsb is_summarizer_call evs end = true.
Proof.
  intros H. apply (runs_trace _ _ _ ∅) in H. destruct H as [<- <-].
  unfold select_summarizer. run_script; cbn;
    rewrite ?String.eqb_refl, ?Z.eqb_refl; repeat split; reflexivity.
Qed.

Lemma main_stats_shape (text summary : string) r evs :
  runs (main_stats lib text summary) r evs ->
  (exists e, r = inl e /\ evs = []) \/
  (exists o w q, r = inr tt /\ evs = [StSuccess o w q]).
Proof.
  intros H. apply (runs_trace _ _ _ ∅) in H. destruct H as [<- <-].
  run_script; eauto 6.
Qed.

Lemma main_generate_shape (text ty : string) (n : Z) :
  exists r evs tail,
    runs (main_summarize lib text ty n) r evs /\
    runs (main_generate lib text ty n) (inr tt)
         ([StSpinner "Generating summary..."] ++ evs ++ tail) /\
    ((exists e, r = inl e /\ tail = [StError e]) \/
     (exists summary e, r = inr summary /\ tail = [StWrite summary; StError e]) \/
     (exists summary o w q,
        r = inr summary /\ tail = [StWrite summary; StSuccess o w q])).
Proof.
  destruct (main_summarize_total lib text ty n) as ([e | summary] & evs & H).
  - exists (inl e), evs, [StError e]. split; [exact H |].
    split; [now apply main_generate_raises | eauto].
  - destruct (main_stats_total lib text summary) as (r' & evs' & H').
    destruct (main_stats_shape _ _ _ _ H') as [(e & -> & ->) | (o & w & q & -> & ->)].
    + exists (inr summary), evs, [StWrite summary; StError e]. split; [exact H |].
      split; [exact (main_generate_stats_raise lib _ _ _ _ _ _ _ H H') | eauto 6].
    + exists (inr summary), evs, [StWrite summary; StSuccess o w q]. split; [exact H |].
      split; [exact (main_generate_stats_shown lib _ _ _ _ _ _ H H') | eauto 8].
Qed.

(** Every run of [main]: the header, the input phase, and then nothing, or
    the options, or the options and one generation. *)
Lemma main_shape :
  exists evs_in evs_out,
    runs (main_input st lib) (inr (acquired_text st lib)) evs_in /\
    runs (main st lib) (inr tt) (header_events ++ evs_in ++ evs_out) /\
    ((truthy (acquired_text st lib) = false /\ evs_out = []) \/
     (truthy (acquired_text st lib) = true /\
      button_value st "Generate Summary" = false /\ evs_out = options_events) \/
     (truthy (acquired_text st lib) = true /\
      button_value st "Generate Summary" = true /\
      exists evs_g,
        runs (main_generate lib (acquired_text st lib)
                (selectbox_value st "Summary type:" summary_types)
                (slider_value st "Summary length:" 1 10 5)) (inr tt) evs_g /\
        evs_out = options_events ++ evs_g)).
Proof.
  destruct main_input_shape as (evs_in & Hi & _).
  destruct (truthy (acquired_text st lib)) eqn:Ht.
  - destruct (button_value st "Generate Summary") eqn:Hb.
    + destruct (main_generate_total lib (acquired_text st lib)
                  (selectbox_value st "Summary type:" summary_types)
                  (slider_value st "Summary length:" 1 10 5)) as (evs_g & Hg).
      exists evs_in, (options_events ++ evs_g). split; [exact Hi |]. split.
      * eapply main_runs; [exact Hi |]. rewrite Ht.
        apply main_options_runs. now rewrite Hb.
      * right. right. eauto.
    + exists evs_in, options_events. split; [exact Hi |]. split.
      * eapply main_runs; [exact Hi |]. rewrite Ht.
        pose proof (main_options_runs st lib (acquired_text st lib) (inr tt) []) as H.
        rewrite Hb, app_nil_r in H. apply H, runs_ret.
      * right. left. auto.
  - exists evs_in, []. split; [exact Hi |]. split.
    + eapply main_runs; [exact Hi |]. rewrite Ht. apply runs_ret.
    + left. auto.
Qed.

(** Splits a goal about [run_trace (main st lib) data] into the shapes of a
    run, with what is known of each part. *)
Ltac by_shape data :=
  let Hi := fresh "Hi" in let Hi' := fresh "Hi" in
  let Hrun := fresh "Hrun" in let Hc := fresh "Hc" in
  let Ht := fresh "Ht" in let Hb := fresh "Hb" in
  let Hg := fresh "Hg" in let Hg' := fresh "Hg" in
  let Hs := fresh "Hs" in let Htail := fresh "Htail" in
  let Herr0 := fresh "Herr0" in let Herr0' := fresh "Herr0" in
  destruct main_input_shape
    as (? & Hi' & ?Hfetch & ?Htrig & ?Hcall & ?Habs & ?Hsumy & ?Hstats & ?Hsum & ?Herr1
        & Herr0 & Herr0');
  destruct main_shape as (? & ? & Hi & Hrun & Hc);
  destruct (runs_det _ _ _ _ _ Hi Hi') as [_ ->];
  match goal with
  | H : existsb is_summarizer_call ?l = false |- _ =>
      destruct (no_call_facts (acquired_text st lib)
                  (slider_value st "Summary length:" 1 10 5) l H) as [?Hitext ?Hiabs]
  end;
  rewrite ?(proj1 (runs_trace _ _ _ data Hrun));
  rewrite ?(proj2 (runs_trace _ _ _ data Hrun));
  destruct Hc as [(Ht & ->) | [(Ht & Hb & ->) | (Ht & Hb & ? & Hg & ->)]];
  rewrite Ht in Herr0, Herr0'; rewrite ?Ht, ?Hb;
  [ | | destruct (main_generate_shape (acquired_text st lib)
                    (selectbox_value st "Summary type:" summary_types)
                    (slider_value st "Summary length:" 1 10 5))
          as (? & ? & ? & Hs & Hg' & Htail);
        destruct (runs_det _ _ _ _ _ Hg Hg') as [_ ->];
        destruct (main_summarize_shape _ _ _ _ _ Hs)
          as (?Hsfetch & ?Hstrig & ?Hserr & ?Hsabs & ?Hstext & ?Hsroute & ?Hscall);
        destruct (main_summarize_events lib _ _ _ _ _ Hs)
          as (?Hssum & ?Hsstats & ?Hserr' & _);
        destruct Htail as [(? & -> & ->) | [(? & ? & -> & ->) | (? & ? & ? & ? & -> & ->)]] ].

Ltac facts :=
  repeat match goal with
    | H : existsb _ _ = _ |- _ => rewrite H
    | H : forallb _ _ = _ |- _ => rewrite H
    | H : List.filter _ _ = [] |- _ => rewrite H
    end.

Ltac crunch :=
  rewrite ?app_nil_r;
  rewrite ?existsb_app, ?forallb_app, ?List.filter_app, ?List.length_app;
  cbn [existsb forallb List.filter length app header_events options_events
       is_fetch is_trigger is_summarizer_call is_abstractive_call is_sumy_call
       is_stats is_summary is_error is_option abstractive_bounds_are call_text_is];
  rewrite ?existsb_app, ?forallb_app, ?List.filter_app, ?List.length_app;
  facts;
  cbn [existsb forallb List.filter length app orb andb negb implb Nat.add
       is_fetch is_trigger is_summarizer_call is_abstractive_call is_sumy_call
       is_stats is_summary is_error is_option abstractive_bounds_are call_text_is].

(** X3.  When whatever the libraries raise is an instance of [Exception]
    (the class both handlers name), every exception is caught: [main]
    returns.  A run shows at most one error message, and never an error
    message together with statistics. *)
Theorem errors_are_caught (data : gset string) :
  (library_raises_Exception lib -> forall s : state, fst (main st lib s) = inr tt) /\
  (length (List.filter is_error (run_trace (main st lib) data)) <= 1)%nat /\
  existsb is_stats (run_trace (main st lib) data)
    && existsb is_error (run_trace (main st lib) data) = false.
Proof.
  split.
  { destruct (main_total st lib) as (evs & H). intros _ s. now rewrite H. }
  by_shape data; crunch; (split; [assumption || lia | reflexivity]).
Qed.

(** X4.  An article is fetched exactly when the input method is not Text and
    the URL field is not empty. *)
Theorem fetch_only_for_entered_url (data : gset string) :
  existsb is_fetch (run_trace (main st lib) data)
  = negb (String.eqb (radio_value st "Input method:" ["Text"; "URL"]) "Text")
    && truthy (text_input_value st "Enter article URL:").
Proof.
  by_shape data; crunch; now rewrite ?orb_false_r.
Qed.

(** X5.  The options block and the Generate Summary button are rendered
    exactly when the text left by the input phase is not empty. *)
Theorem options_iff_text (data : gset string) :
  existsb is_trigger (run_trace (main st lib) data) = truthy (acquired_text st lib) /\
  existsb is_option (run_trace (main st lib) data) = truthy (acquired_text st lib).
Proof.
  destruct main_input_shape as (evs & Hi & _).
  destruct (main_input_events st lib _ _ Hi) as (Hopt & _).
  by_shape data; destruct (runs_det _ _ _ _ _ Hi Hi0) as [_ ->];
    crunch; split; reflexivity.
Qed.

(** X6.  Unless the text is not empty and the button was pressed, no
    summarizer is called and neither a summary nor statistics are shown. *)
Theorem nothing_generated_without_button (data : gset string) :
  truthy (acquired_text st lib) && button_value st "Generate Summary" = false ->
  existsb is_summarizer_call (run_trace (main st lib) data) = false /\
  existsb is_summary (run_trace (main st lib) data) = false /\
  existsb is_stats (run_trace (main st lib) data) = false.
Proof.
  intros H. by_shape data; rewrite ?Ht, ?Hb in H; try discriminate H;
    crunch; repeat split; reflexivity.
Qed.

(** X7.  Every call of a summarizer is made on the text left by the input
    phase, which is then not empty; on the Text path that text is the text
    area's content. *)
Theorem summarizer_gets_acquired_text (data : gset string) :
  forallb (call_text_is (acquired_text st lib)) (run_trace (main st lib) data) = true /\
  (existsb is_summarizer_call (run_trace (main st lib) data) = true ->
   truthy (acquired_text st lib) = true) /\
  (String.eqb (radio_value st "Input method:" ["Text"; "URL"]) "Text" = true ->
   acquired_text st lib = text_area_value st "Paste your article text here:").
Proof.
  split; [| split].
  - by_shape data; crunch; reflexivity.
  - by_shape data; crunch; intros H; try discriminate H; reflexivity.
  - intros Hm. pose proof (main_input_text st lib Hm) as H.
    unfold acquired_text. now rewrite (H (init ∅)).
Qed.

(** X8.  Every call of the abstractive summarizer gets [max_length] thirty
    times the slider's value, between 30 and 300, and [min_length] 30: the
    minimum never exceeds the maximum. *)
Theorem abstractive_length_bounds (data : gset string) :
  forallb (abstractive_bounds_are (slider_value st "Summary length:" 1 10 5))
          (run_trace (main st lib) data) = true /\
  forallb abstractive_in_range (run_trace (main st lib) data) = true.
Proof.
  assert (H : forallb (abstractive_bounds_are (slider_value st "Summary length:" 1 10 5))
                (run_trace (main st lib) data) = true)
    by (by_shape data; crunch; reflexivity).
  split; [exact H |].
  pose proof (slider_length_bound st) as Hb.
  rewrite forallb_forall in H. apply forallb_forall. intros e He.
  specialize (H e He). destruct e; cbn in *; trivial.
  apply andb_prop in H. destruct H as [H1 H2].
  apply Z.eqb_eq in H1, H2. subst.
  apply andb_true_intro; split; [apply andb_true_intro; split |]; apply Z.leb_le; lia.
Qed.

(** X9.  One run never calls both summarizers: with an option whose label
    contains [Extractive] the abstractive summarizer is not called, and with
    any other option the extractive one is not. *)
Theorem one_summarizer_per_run (data : gset string) :
  (if PyStr.contains "Extractive" (selectbox_value st "Summary type:" summary_types)
   then existsb is_abstractive_call (run_trace (main st lib) data)
   else existsb is_sumy_call (run_trace (main st lib) data)) = false /\
  existsb is_abstractive_call (run_trace (main st lib) data)
    && existsb is_sumy_call (run_trace (main st lib) data) = false.
Proof.
  assert (H : (if PyStr.contains "Extractive"
                    (selectbox_value st "Summary type:" summary_types)
               then existsb is_abstractive_call (run_trace (main st lib) data)
               else existsb is_sumy_call (run_trace (main st lib) data)) = false).
  { by_shape data; crunch;
      destruct (PyStr.contains "Extractive"
                  (selectbox_value st "Summary type:" summary_types));
      rewrite ?Hsroute; reflexivity. }
  split; [exact H |].
  destruct (PyStr.contains "Extractive" (selectbox_value st "Summary type:" summary_types));
    rewrite H; [reflexivity | apply andb_false_r].
Qed.

(** X10.  Statistics are shown only in a run that wrote a summary, and a
    summary is written only in a run that called a summarizer. *)
Theorem stats_need_summary_need_call (data : gset string) :
  (existsb is_stats (run_trace (main st lib) data) = true ->
   existsb is_summary (run_trace (main st lib) data) = true) /\
  (existsb is_summary (run_trace (main st lib) data) = true ->
   existsb is_summarizer_call (run_trace (main st lib) data) = true).
Proof.
  split; by_shape data; crunch; intros H; try discriminate H;
    rewrite ?orb_true_r; try reflexivity.
  all: cbn in Hscall; rewrite Hscall; now rewrite ?orb_true_r.
Qed.

(** *** The strategy behind each option *)

Lemma sumy_summarizer_returns (text tag : string) (n : Z) f p d sents :
  select_summarizer tag = Some f ->
  PlaintextParser_from_string lib text "english" = inr p ->
  parser_document lib p = inr d ->
  summarizer_call lib f d n = inr sents ->
  runs (sumy_summarizer lib text tag n)
       (inr (PyStr.join " " (map (sentence_str lib) sents)))
       [CallSumy text tag n; CallRank f n].
Proof.
  intros Hsel Hp Hd Hc s. unfold sumy_summarizer. rewrite Hsel.
  unfold bind, lift, emit, read_local, ret. rewrite Hp, Hd. cbn [trace nltk_data].
  rewrite Hc. norm_trace. reflexivity.
Qed.

(** X12.  With each of the options LSA, Luhn and TextRank, when the parser
    and the ranker return, the summarizer block calls the strategy the
    option names with the given count, and returns the ranked sentences
    joined by single spaces, under the extractive heading. *)
Theorem working_option_summarizes (o tag : string) (f : summarizer)
    (text : string) (n : Z) p d sents :
  In (o, tag, f) working_options ->
  PlaintextParser_from_string lib text "english" = inr p ->
  parser_document lib p = inr d ->
  summarizer_call lib f d n = inr sents ->
  runs (main_summarize lib text o n)
       (inr (PyStr.join " " (map (sentence_str lib) sents)))
       [CallSumy text tag n; CallRank f n; StSubheader "📋 Extractive Summary"].
Proof.
  intros Hin Hp Hd Hc. unfold working_options in Hin. cbn [In] in Hin.
  destruct Hin as [[= <- <- <-] | [[= <- <- <-] | [[= <- <- <-] | []]]];
    unfold main_summarize;
    match goal with
    | |- context [PyStr.contains ?a ?b] => change (PyStr.contains a b) with true
    end; cbv iota.
  - eapply runs_bind; [apply method_of_lsa | | reflexivity].
    eapply runs_bind; [exact (sumy_summarizer_returns text "lsa" n LsaSummarizer p d sents eq_refl Hp Hd Hc) | | reflexivity].
    eapply runs_bind; [apply runs_emit | apply runs_ret | reflexivity].
  - eapply runs_bind; [apply method_of_luhn | | reflexivity].
    eapply runs_bind; [exact (sumy_summarizer_returns text "luhn" n LuhnSummarizer p d sents eq_refl Hp Hd Hc) | | reflexivity].
    eapply runs_bind; [apply runs_emit | apply runs_ret | reflexivity].
  - eapply runs_bind; [apply method_of_textrank | | reflexivity].
    eapply runs_bind; [exact (sumy_summarizer_returns text "textrank" n TextRankSummarizer p d sents eq_refl Hp Hd Hc) | | reflexivity].
    eapply runs_bind; [apply runs_emit | apply runs_ret | reflexivity].
Qed.

Lemma lexrank_needs_lex (tag : string) :
  select_summarizer tag = Some LexRankSummarizer -> tag = "lex".
Proof.
  unfold select_summarizer.
  destruct (String.eqb_spec tag "lsa"); [discriminate |].
  destruct (String.eqb_spec tag "lex"); [trivial |].
  destruct (String.eqb_spec tag "luhn"); [discriminate |].
  destruct (String.eqb_spec tag "textrank"); discriminate.
Qed.

Lemma main_summarize_lexrank (text ty : string) (n : Z) r evs :
  runs (main_summarize lib text ty n) r evs ->
  existsb is_lexrank evs = true ->
  exists after inside,
    nth_error (PyStr.split "(" ty) 1 = Some after /\
    nth_error (PyStr.split ")" after) 0 = Some inside /\
    PyStr.lower inside = "lex".
Proof.
  intros H. apply (runs_trace _ _ _ ∅) in H. destruct H as [<- _].
  run_script; cbn; try discriminate;
    match goal with
    | H : select_summarizer _ = Some ?f |- _ =>
        destruct f; cbn; try discriminate; intros _;
        apply lexrank_needs_lex in H; eauto
    end.
Qed.

Lemma no_call_no_lexrank (l : list event) :
  existsb is_summarizer_call l = false -> existsb is_lexrank l = false.
Proof.
  induction l as [| e l IH]; [reflexivity |]. cbn [existsb].
  intros H. apply orb_false_elim in H. destruct H as [He Hl].
  rewrite (IH Hl). destruct e; try reflexivity; discriminate.
Qed.

(** X11.  With any of the five options the select box offers, no run ever
    invokes the LexRank strategy: the branch of line 26 is unreachable from
    the form. *)
Theorem lexrank_never_runs (data : gset string) :
  In (selectbox_value st "Summary type:" summary_types) summary_types ->
  existsb is_lexrank (run_trace (main st lib) data) = false.
Proof.
  intros Hin.
  assert (Hs : forall ty text n r evs,
             In ty summary_types ->
             runs (main_summarize lib text ty n) r evs ->
             existsb is_lexrank evs = false).
  { intros ty text n r evs Hty H. apply not_true_is_false. intros Hl.
    destruct (main_summarize_lexrank _ _ _ _ _ H Hl) as (after & inside & H1 & H2 & H3).
    unfold summary_types in Hty. cbn [In] in Hty.
    destruct Hty as [<- | [<- | [<- | [<- | [<- | []]]]]];
      cbn in H1; injection H1 as <-; cbn in H2; injection H2 as <-; discriminate H3. }
  by_shape data; rewrite ?app_nil_r, ?existsb_app;
    rewrite ?(no_call_no_lexrank _ Hcall), ?(Hs _ _ _ _ _ Hin Hs0); reflexivity.
Qed.

End Runs.

(** ** The statistics and the fetch *)

Section Statistics.

Variable st : Streamlit.
Variable lib : Library.

(** X13.  The percentage is not clamped: for a non-empty original it is at
    most 100, and it is negative exactly when the summary has more words
    than the original. *)
Theorem reduction_range (text summary : string) (wo ws : list string) :
  word_tokenize lib text = inr wo ->
  word_tokenize lib summary = inr ws ->
  wo <> [] ->
  exists q : Q,
    runs (main_stats lib text summary) (inr tt)
         [StSuccess (Z.of_nat (length wo)) (Z.of_nat (length ws)) q] /\
    (q <= 100)%Q /\
    ((q < 0)%Q <-> (length wo < length ws)%nat).
Proof.
  intros Ho Hs Hne.
  assert (Hpos : 0 < Z.of_nat (length wo)) by (destruct wo; [congruence | cbn; lia]).
  exists (reduction (Z.of_nat (length wo)) (Z.of_nat (length ws))).
  split; [apply main_stats_shown; trivial; lia |].
  split; [apply reduction_le_100; lia |].
  rewrite reduction_negative by exact Hpos. lia.
Qed.

(** X14.  When the summarizer has returned and a word tokenization then
    raises, the handler has already written the summary: the run shows the
    summary followed by the error message, and no statistics. *)
Theorem tokenizer_failure_after_summary (text ty : string) (n : Z) summary evs e :
  runs (main_summarize lib text ty n) (inr summary) evs ->
  word_tokenize lib text = inl e \/
  (exists wo, word_tokenize lib text = inr wo /\ word_tokenize lib summary = inl e) ->
  runs (main_generate lib text ty n) (inr tt)
       ([StSpinner "Generating summary..."] ++ evs ++ [StWrite summary; StError e]).
Proof.
  intros H Htok.
  assert (Hst : runs (main_stats lib text summary) (inl e) []).
  { intros [tr d]. unfold main_stats, bind, lift.
    destruct Htok as [-> | (wo & -> & ->)]; cbn; now rewrite app_nil_r. }
  exact (main_generate_stats_raise lib _ _ _ _ _ _ _ H Hst).
Qed.

(** X15.  On the URL path, when the fetch of the entered URL returns, the
    extracted text is shown in a text area and becomes the text that the
    rest of the run works on; no error is shown. *)
Theorem fetched_text_is_shown (url t : string) evs :
  String.eqb (radio_value st "Input method:" ["Text"; "URL"]) "Text" = false ->
  text_input_value st "Enter article URL:" = url ->
  truthy url = true ->
  runs (get_article_text lib url) (inr t) evs ->
  runs (main_input st lib) (inr t)
       [StRadio "Input method:" ["Text"; "URL"]; StTextInput "Enter article URL:";
        StSpinner "Fetching article..."; CallGetArticleText url;
        StTextArea "Extracted Text:" t] /\
  acquired_text st lib = t.
Proof.
  intros Hm <- Hu Hf.
  pose proof (get_article_text_events lib _ _ _ Hf) as ->.
  assert (H : runs (main_input st lib) (inr t)
                [StRadio "Input method:" ["Text"; "URL"]; StTextInput "Enter article URL:";
                 StSpinner "Fetching article...";
                 CallGetArticleText (text_input_value st "Enter article URL:");
                 StTextArea "Extracted Text:" t]).
  { unfold main_input.
    eapply runs_bind; [apply st_radio_runs | | reflexivity].
    rewrite Hm.
    eapply runs_bind; [apply st_text_input_runs | | reflexivity].
    rewrite Hu.
    eapply runs_bind; [apply runs_emit | | reflexivity].
    apply runs_try.
    eapply runs_bind; [exact Hf | | reflexivity].
    eapply runs_bind; [apply runs_emit | apply runs_ret | reflexivity]. }
  split; [exact H |]. unfold acquired_text. now rewrite (H (init ∅)).
Qed.

End Statistics.

(** ** The further properties on concrete inputs *)

Lemma demo_raises_Exception : library_raises_Exception Demo.library.
Proof.
  repeat split; intros; cbn; trivial.
  now destruct (String.prefix "http" a).
Qed.

Lemma errors_are_caught_witness :
  library_raises_Exception Demo.library /\
  fst (main (Demo.session "URL" "" "not a url" "Extractive (LSA)" 5 true) Demo.library
            (init ∅)) = inr tt.
Proof.
  split; [exact demo_raises_Exception |].
  exact (proj1 (errors_are_caught
                  (Demo.session "URL" "" "not a url" "Extractive (LSA)" 5 true)
                  Demo.library ∅) demo_raises_Exception (init ∅)).
Defined.

Lemma nothing_generated_without_button_witness :
  truthy (acquired_text
            (Demo.session "Text" "One two. Three four. Five." "" "Extractive (LSA)" 2 false)
            Demo.library)
    && button_value
         (Demo.session "Text" "One two. Three four. Five." "" "Extractive (LSA)" 2 false)
         "Generate Summary" = false /\
  existsb is_summarizer_call
    (run_trace (main (Demo.session "Text" "One two. Three four. Five." "" "Extractive (LSA)" 2 false)
                     Demo.library) ∅) = false /\
  existsb is_summary
    (run_trace (main (Demo.session "Text" "One two. Three four. Five." "" "Extractive (LSA)" 2 false)
                     Demo.library) ∅) = false /\
  existsb is_stats
    (run_trace (main (Demo.session "Text" "One two. Three four. Five." "" "Extractive (LSA)" 2 false)
                     Demo.library) ∅) = false.
Proof.
  split; [reflexivity |].
  exact (nothing_generated_without_button
           (Demo.session "Text" "One two. Three four. Five." "" "Extractive (LSA)" 2 false)
           Demo.library ∅ eq_refl).
Defined.

Lemma lexrank_never_runs_witness :
  In (selectbox_value
        (Demo.session "Text" "One two. Three four. Five." "" "Extractive (LexRank)" 2 true)
        "Summary type:" summary_types) summary_types /\
  existsb is_lexrank
    (run_trace (main (Demo.session "Text" "One two. Three four. Five." "" "Extractive (LexRank)" 2 true)
                     Demo.library) ∅) = false.
Proof.
  assert (H : In (selectbox_value
                    (Demo.session "Text" "One two. Three four. Five." ""
                                  "Extractive (LexRank)" 2 true)
                    "Summary type:" summary_types) summary_types)
    by (right; left; reflexivity).
  split; [exact H |].
  exact (lexrank_never_runs
           (Demo.session "Text" "One two. Three four. Five." "" "Extractive (LexRank)" 2 true)
           Demo.library ∅ H).
Defined.

Lemma working_option_summarizes_witness :
  In ("Extractive (Luhn)", "luhn", LuhnSummarizer) working_options /\
  PlaintextParser_from_string Demo.library "One two. Three four. Five." "english"
    = inr "One two. Three four. Five." /\
  parser_document Demo.library "One two. Three four. Five."
    = inr ["One two."; "Three four."; "Five."] /\
  summarizer_call Demo.library LuhnSummarizer ["One two."; "Three four."; "Five."] 2
    = inr ["One two."; "Three four."] /\
  runs (main_summarize Demo.library "One two. Three four. Five." "Extractive (Luhn)" 2)
       (inr "One two. Three four.")
       [CallSumy "One two. Three four. Five." "luhn" 2; CallRank LuhnSummarizer 2;
        StSubheader "📋 Extractive Summary"].
Proof.
  assert (H : In ("Extractive (Luhn)", "luhn", LuhnSummarizer) working_options)
    by (right; left; reflexivity).
  split; [exact H |]. split; [reflexivity |]. split; [reflexivity |].
  split; [reflexivity |].
  exact (working_option_summarizes Demo.library "Extractive (Luhn)" "luhn" LuhnSummarizer
           "One two. Three four. Five." 2 "One two. Three four. Five."
           ["One two."; "Three four."; "Five."] ["One two."; "Three four."]
           H eq_refl eq_refl eq_refl).
Defined.

Lemma reduction_range_witness :
  word_tokenize Demo.library "One two." = inr ["One"; "two."] /\
  word_tokenize Demo.library "One two and three more." 
    = inr ["One"; "two"; "and"; "three"; "more."] /\
  ["One"; "two."] <> [] /\
  exists q : Q,
    runs (main_stats Demo.library "One two." "One two and three more.") (inr tt)
         [StSuccess 2 5 q] /\
    (q <= 100)%Q /\ (q < 0)%Q.
Proof.
  split; [reflexivity |]. split; [reflexivity |].
  assert (Hne : ["One"; "two."] <> []) by discriminate.
  split; [exact Hne |].
  destruct (reduction_range Demo.library "One two." "One two and three more."
              ["One"; "two."] ["One"; "two"; "and"; "three"; "more."]
              eq_refl eq_refl Hne) as (q & Hr & Hle & Hneg).
  exists q. split; [exact Hr |]. split; [exact Hle |]. apply Hneg. cbn. lia.
Defined.

Lemma demo_summarize_offline :
  runs (main_summarize Demo.library_without_punkt "One two. Three four. Five."
          "Extractive (LSA)" 2)
       (inr "One two. Three four.")
       [CallSumy "One two. Three four. Five." "lsa" 2; CallRank LsaSummarizer 2;
        StSubheader "📋 Extractive Summary"].
Proof. eval_runs. Defined.

Lemma tokenizer_failure_after_summary_witness :
  runs (main_summarize Demo.library_without_punkt "One two. Three four. Five."
          "Extractive (LSA)" 2)
       (inr "One two. Three four.")
       [CallSumy "One two. Three four. Five." "lsa" 2; CallRank LsaSummarizer 2;
        StSubheader "📋 Extractive Summary"] /\
  (word_tokenize Demo.library_without_punkt "One two. Three four. Five."
     = inl (LibraryError "LookupError" "Resource punkt not found.") \/
   (exists wo,
      word_tokenize Demo.library_without_punkt "One two. Three four. Five." = inr wo /\
      word_tokenize Demo.library_without_punkt "One two. Three four."
        = inl (LibraryError "LookupError" "Resource punkt not found."))) /\
  runs (main_generate Demo.library_without_punkt "One two. Three four. Five."
          "Extractive (LSA)" 2) (inr tt)
       [StSpinner "Generating summary..."; CallSumy "One two. Three four. Five." "lsa" 2;
        CallRank LsaSummarizer 2; StSubheader "📋 Extractive Summary";
        StWrite "One two. Three four.";
        StError (LibraryError "LookupError" "Resource punkt not found.")].
Proof.
  split; [exact demo_summarize_offline |].
  split; [left; reflexivity |].
  exact (tokenizer_failure_after_summary Demo.library_without_punkt _ _ _ _ _ _
           demo_summarize_offline (or_introl eq_refl)).
Defined.

Lemma demo_fetch_returns :
  runs (get_article_text Demo.library "http://example.org/article")
       (inr "Fetched body. Second sentence.")
       [CallGetArticleText "http://example.org/article"].
Proof. eval_runs. Defined.

Lemma fetched_text_is_shown_witness :
  String.eqb
    (radio_value (Demo.session "URL" "" "http://example.org/article" "Extractive (LSA)" 5 false)
                 "Input method:" ["Text"; "URL"]) "Text" = false /\
  text_input_value (Demo.session "URL" "" "http://example.org/article" "Extractive (LSA)" 5 false)
                   "Enter article URL:" = "http://example.org/article" /\
  truthy "http://example.org/article" = true /\
  runs (get_article_text Demo.library "http://example.org/article")
       (inr "Fetched body. Second sentence.")
       [CallGetArticleText "http://example.org/article"] /\
  runs (main_input
          (Demo.session "URL" "" "http://example.org/article" "Extractive (LSA)" 5 false)
          Demo.library)
       (inr "Fetched body. Second sentence.")
       [StRadio "Input method:" ["Text"; "URL"]; StTextInput "Enter article URL:";
        StSpinner "Fetching article..."; CallGetArticleText "http://example.org/article";
        StTextArea "Extracted Text:" "Fetched body. Second sentence."] /\
  acquired_text
    (Demo.session "URL" "" "http://example.org/article" "Extractive (LSA)" 5 false)
    Demo.library = "Fetched body. Second sentence.".
Proof.
  split; [reflexivity |]. split; [reflexivity |]. split; [reflexivity |].
  split; [exact demo_fetch_returns |].
  exact (fetched_text_is_shown
           (Demo.session "URL" "" "http://example.org/article" "Extractive (LSA)" 5 false)
           Demo.library "http://example.org/article" _ _
           eq_refl eq_refl eq_refl demo_fetch_returns).
Defined.
